(** * AI quiz page (src/2.0/1.js): a shallow embedding and its properties

    The page is one script: a question provider ([generateQuestionsWithAI]),
    four module-level variables holding the quiz state, and the click
    handlers that move the quiz along ([startQuiz], [loadQuestion],
    [selectOption], [loadNextQuestion], [showResult], [retakeQuiz],
    [changeLanguage]).

    The embedding keeps the script's shape.  Parsed JSON is a tree of
    JavaScript values; expressions that can throw are computed in an
    exception monad; statements run in a state-and-exception monad over the
    page (the module variables, the part of the DOM the script touches, and
    a trace of what the script did to the outside world: alerts shown,
    requests sent, random numbers drawn).  What the runtime supplies
    ([JSON.parse], [Math.random], number formatting, the wording of the
    engine's own error messages) is an interface, [Engine]. *)

From Stdlib Require Import Floats.
From stdpp Require Import base strings list pretty.

Open Scope string_scope.
Open Scope nat_scope.

(** ** JavaScript values

    The values the script handles are those [JSON.parse] and
    [response.json()] build, plus [undefined] (what reading an absent
    property gives).  An object is the list of its own properties, each
    name once.  Of a string the script uses its equality with another,
    its concatenation and whether it is empty, which do not depend on how
    its characters are encoded. *)

#[warnings="-register-all"] Inductive value : Type :=
| VUndefined
| VNull
| VBool (b : bool)
| VNum (n : float)
| VStr (s : string)
| VArr (elements : list value)
| VObj (properties : list (string * value)).

(** Exceptions.  The script creates one itself ([new Error(...)], line 166);
    the others are raised by the runtime. *)
Inductive Error : Type :=
| Error_new (msg : string)
| TypeError_read (base : value) (property : string)
| TypeError_not_iterable (v : value)
| SyntaxError_JSON (text : string)
| HostError (msg : string).

(** What the runtime supplies. *)
Class Engine : Type := {
  (** [JSON.parse] on a string: [None] when it throws a [SyntaxError]. *)
  JSON_parse : string -> option value;
  (** the n-th number [Math.random()] returns on this page *)
  Math_random : nat -> float;
  (** [Number::toString] and [StringToNumber] *)
  NumberToString : float -> string;
  StringToNumber : string -> float;
  (** the message text of an error the runtime itself raises *)
  runtime_message : Error -> string
}.

(** [error.message] *)
Definition message `{Engine} (e : Error) : string :=
  match e with
  | Error_new msg => msg
  | HostError msg => msg
  | _ => runtime_message e
  end.

(** ** Completions: an expression returns a value or throws *)

Inductive Completion (A : Type) : Type :=
| Returned (a : A)
| Thrown (e : Error).
Arguments Returned {A} a.
Arguments Thrown {A} e.

Definition cbind {A B} (c : Completion A) (k : A -> Completion B) : Completion B :=
  match c with
  | Returned a => k a
  | Thrown e => Thrown e
  end.

Declare Scope completion_scope.
Delimit Scope completion_scope with completion.
Notation "x <- c ; k" := (cbind c (fun x => k))
  (at level 100, c at next level, right associativity) : completion_scope.

(** ** Property reads and coercions *)

Fixpoint own_property (p : string) (properties : list (string * value)) : option value :=
  match properties with
  | [] => None
  | (k, v) :: rest => if String.eqb p k then Some v else own_property p rest
  end.

Definition number_of_nat (n : nat) : float :=
  PrimFloat.of_uint63 (Uint63.of_Z (Z.of_nat n)).

Definition characters (s : string) : list value :=
  map (fun c => VStr (String c EmptyString)) (String.list_ascii_of_string s).

(** [v.p] for a property name that is not an array index.  None of the
    names the script reads ([candidates], [content], [parts], [text],
    [question], [options], [answer], [length]) is on a prototype, except
    [length] on arrays and strings. *)
Definition Get (v : value) (p : string) : Completion value :=
  match v with
  | VUndefined | VNull => Thrown (TypeError_read v p)
  | VObj properties => Returned (default VUndefined (own_property p properties))
  | VArr elements =>
      Returned (if String.eqb p "length" then VNum (number_of_nat (length elements))
                else VUndefined)
  | VStr s =>
      Returned (if String.eqb p "length" then VNum (number_of_nat (String.length s))
                else VUndefined)
  | VBool _ | VNum _ => Returned VUndefined
  end.

(** [v[i]] *)
Definition GetIndex (v : value) (i : nat) : Completion value :=
  match v with
  | VUndefined | VNull => Thrown (TypeError_read v (pretty i))
  | VObj properties => Returned (default VUndefined (own_property (pretty i) properties))
  | VArr elements => Returned (nth i elements VUndefined)
  | VStr s => Returned (nth i (characters s) VUndefined)
  | VBool _ | VNum _ => Returned VUndefined
  end.

(** [ToBoolean]: what [&&] and [if] test. *)
Definition ToBoolean (v : value) : bool :=
  match v with
  | VUndefined | VNull => false
  | VBool b => b
  | VNum n => negb (PrimFloat.eqb n 0%float || PrimFloat.is_nan n)
  | VStr s => negb (String.eqb s "")
  | VArr _ | VObj _ => true
  end.

(** [ToString].  An array joins its elements with commas, [null] and
    [undefined] elements giving the empty string. *)
Fixpoint ToString `{Engine} (v : value) : string :=
  match v with
  | VUndefined => "undefined"
  | VNull => "null"
  | VBool true => "true"
  | VBool false => "false"
  | VNum n => NumberToString n
  | VStr s => s
  | VArr elements =>
      (fix join (l : list value) : string :=
         let element x :=
           match x with
           | VUndefined | VNull => ""
           | _ => ToString x
           end in
         match l with
         | [] => ""
         | [x] => element x
         | x :: rest => element x ++ "," ++ join rest
         end) elements
  | VObj _ => "[object Object]"
  end.

(** [ToNumber] *)
Definition ToNumber `{Engine} (v : value) : float :=
  match v with
  | VUndefined => PrimFloat.nan
  | VNull => 0%float
  | VBool true => 1%float
  | VBool false => 0%float
  | VNum n => n
  | VStr s => StringToNumber s
  | VArr _ | VObj _ => StringToNumber (ToString v)
  end.

(** [v > 0] *)
Definition greater_than_zero `{Engine} (v : value) : bool :=
  PrimFloat.ltb 0%float (ToNumber v).

(** What assigning [v] to [element.textContent] stores: [null] and
    [undefined] clear the text, anything else is converted to a string. *)
Definition DOMString `{Engine} (v : value) : string :=
  match v with
  | VUndefined | VNull => ""
  | _ => ToString v
  end.

Definition typeof_string (v : value) : bool :=
  match v with VStr _ => true | _ => false end.

(** [a === b].  Two objects are equal only when they are the same object;
    the operands the script compares are read from different places of a
    parsed tree, so two objects or arrays never are. *)
Definition strict_equal (a b : value) : bool :=
  match a, b with
  | VUndefined, VUndefined => true
  | VNull, VNull => true
  | VBool x, VBool y => Bool.eqb x y
  | VNum x, VNum y => PrimFloat.eqb x y
  | VStr x, VStr y => String.eqb x y
  | _, _ => false
  end.

(** [SameValueZero], the comparison of [Array.prototype.includes]: as
    [===] except that NaN equals NaN. *)
Definition same_value_zero (a b : value) : bool :=
  match a, b with
  | VNum x, VNum y => PrimFloat.eqb x y || (PrimFloat.is_nan x && PrimFloat.is_nan y)
  | _, _ => strict_equal a b
  end.

Definition Array_includes (elements : list value) (v : value) : bool :=
  existsb (fun x => same_value_zero x v) elements.

(** [array.every(f)] stops at the first element on which [f] is false, and
    at the first on which it throws. *)
Fixpoint Array_every (f : value -> Completion bool) (elements : list value)
  : Completion bool :=
  match elements with
  | [] => Returned true
  | x :: rest =>
      (b <- f x;
       if b then Array_every f rest else Returned false)%completion
  end.

(** ** Validation of the parsed questions (lines 182-186) *)

(** The arrow function given to [parsedQuestions.every]. *)
Definition question_check (q : value) : Completion bool :=
  (question <- Get q "question";
   if negb (typeof_string question) then Returned false else
   options <- Get q "options";
   match options with
   | VArr opts =>
       if negb (length opts =? 4)%nat then Returned false else
       if negb (forallb typeof_string opts) then Returned false else
       answer <- Get q "answer";
       if negb (typeof_string answer) then Returned false else
       Returned (Array_includes opts answer)
   | _ => Returned false
   end)%completion.

(** [Array.isArray(parsedQuestions) && parsedQuestions.every(...)] *)
Definition questions_check (parsedQuestions : value) : Completion bool :=
  match parsedQuestions with
  | VArr elements => Array_every question_check elements
  | _ => Returned false
  end.

(** The test of line 173-175 on the decoded response. *)
Definition has_text_part `{Engine} (result : value) : Completion bool :=
  (candidates <- Get result "candidates";
   if negb (ToBoolean candidates) then Returned false else
   candidates_length <- Get candidates "length";
   if negb (greater_than_zero candidates_length) then Returned false else
   candidate <- GetIndex candidates 0;
   content <- Get candidate "content";
   if negb (ToBoolean content) then Returned false else
   parts <- Get content "parts";
   if negb (ToBoolean parts) then Returned false else
   parts_length <- Get parts "length";
   Returned (greater_than_zero parts_length))%completion.

(** [result.candidates[0].content.parts[0].text] (line 177) *)
Definition text_part (result : value) : Completion value :=
  (candidates <- Get result "candidates";
   candidate <- GetIndex candidates 0;
   content <- Get candidate "content";
   parts <- Get content "parts";
   part <- GetIndex parts 0;
   Get part "text")%completion.

(** ** The page

    An option button as the script builds it in [loadQuestion]: its text,
    its classes, whether it is disabled, and the two variables its click
    listener closes over ([option] and [question], line 258). *)
Record Button : Type := {
  textContent : string;
  classList : list string;
  disabled : bool;
  listener_option : value;
  listener_question : value
}.

(** [classList.add(c)]: a class is listed once. *)
Definition classList_add (c : string) (b : Button) : Button :=
  {| textContent := textContent b;
     classList := if existsb (String.eqb c) (classList b) then classList b
                  else classList b ++ [c];
     disabled := disabled b;
     listener_option := listener_option b;
     listener_question := listener_question b |}.

Definition set_disabled (d : bool) (b : Button) : Button :=
  {| textContent := textContent b; classList := classList b; disabled := d;
     listener_option := listener_option b;
     listener_question := listener_question b |}.

(** The state of the page: the elements the script holds references to
    (the [hidden] class of five of them, the text of four, the children
    of [optionsContainer]), the module variables, and the trace of the
    script's calls to [alert], [fetch] and [Math.random].  The calls to
    [console.error] are left out: nothing reads the console. *)
Record Page : Type := {
  (** [languageSelect.value]: the language chosen in the drop-down *)
  languageSelect_value : string;
  languageSelectionSection_hidden : bool;
  loadingIndicator_hidden : bool;
  quizContainer_hidden : bool;
  scoreCard_hidden : bool;
  nextButton_hidden : bool;
  (** [questionText.textContent] *)
  questionText : string;
  (** [optionsContainer.children] *)
  optionsContainer : list Button;
  finalScoreSpan : string;
  totalQuestionsSpan : string;
  (** the four module variables (lines 29-32) *)
  currentQuestions : list value;
  currentQuestionIndex : nat;
  score : nat;
  answeredThisQuestion : bool;
  (** the messages [alert] has shown, oldest first *)
  alerts : list string;
  (** the prompt of each request [fetch] has sent, oldest first *)
  requests : list string;
  (** how many times [Math.random] has been called *)
  random_calls : nat
}.

(** Assignments to one field of the page. *)
Definition set_languageSelectionSection_hidden (x : bool) (st : Page) : Page :=
  {| languageSelect_value := languageSelect_value st;
     languageSelectionSection_hidden := x;
     loadingIndicator_hidden := loadingIndicator_hidden st;
     quizContainer_hidden := quizContainer_hidden st;
     scoreCard_hidden := scoreCard_hidden st;
     nextButton_hidden := nextButton_hidden st;
     questionText := questionText st;
     optionsContainer := optionsContainer st;
     finalScoreSpan := finalScoreSpan st;
     totalQuestionsSpan := totalQuestionsSpan st;
     currentQuestions := currentQuestions st;
     currentQuestionIndex := currentQuestionIndex st; score := score st;
     answeredThisQuestion := answeredThisQuestion st; alerts := alerts st;
     requests := requests st; random_calls := random_calls st |}.

Definition set_loadingIndicator_hidden (x : bool) (st : Page) : Page :=
  {| languageSelect_value := languageSelect_value st;
     languageSelectionSection_hidden := languageSelectionSection_hidden st;
     loadingIndicator_hidden := x;
     quizContainer_hidden := quizContainer_hidden st;
     scoreCard_hidden := scoreCard_hidden st;
     nextButton_hidden := nextButton_hidden st;
     questionText := questionText st;
     optionsContainer := optionsContainer st;
     finalScoreSpan := finalScoreSpan st;
     totalQuestionsSpan := totalQuestionsSpan st;
     currentQuestions := currentQuestions st;
     currentQuestionIndex := currentQuestionIndex st; score := score st;
     answeredThisQuestion := answeredThisQuestion st; alerts := alerts st;
     requests := requests st; random_calls := random_calls st |}.

Definition set_quizContainer_hidden (x : bool) (st : Page) : Page :=
  {| languageSelect_value := languageSelect_value st;
     languageSelectionSection_hidden := languageSelectionSection_hidden st;
     loadingIndicator_hidden := loadingIndicator_hidden st;
     quizContainer_hidden := x; scoreCard_hidden := scoreCard_hidden st;
     nextButton_hidden := nextButton_hidden st;
     questionText := questionText st;
     optionsContainer := optionsContainer st;
     finalScoreSpan := finalScoreSpan st;
     totalQuestionsSpan := totalQuestionsSpan st;
     currentQuestions := currentQuestions st;
     currentQuestionIndex := currentQuestionIndex st; score := score st;
     answeredThisQuestion := answeredThisQuestion st; alerts := alerts st;
     requests := requests st; random_calls := random_calls st |}.

Definition set_scoreCard_hidden (x : bool) (st : Page) : Page :=
  {| languageSelect_value := languageSelect_value st;
     languageSelectionSection_hidden := languageSelectionSection_hidden st;
     loadingIndicator_hidden := loadingIndicator_hidden st;
     quizContainer_hidden := quizContainer_hidden st; scoreCard_hidden := x;
     nextButton_hidden := nextButton_hidden st;
     questionText := questionText st;
     optionsContainer := optionsContainer st;
     finalScoreSpan := finalScoreSpan st;
     totalQuestionsSpan := totalQuestionsSpan st;
     currentQuestions := currentQuestions st;
     currentQuestionIndex := currentQuestionIndex st; score := score st;
     answeredThisQuestion := answeredThisQuestion st; alerts := alerts st;
     requests := requests st; random_calls := random_calls st |}.

Definition set_nextButton_hidden (x : bool) (st : Page) : Page :=
  {| languageSelect_value := languageSelect_value st;
     languageSelectionSection_hidden := languageSelectionSection_hidden st;
     loadingIndicator_hidden := loadingIndicator_hidden st;
     quizContainer_hidden := quizContainer_hidden st;
     scoreCard_hidden := scoreCard_hidden st; nextButton_hidden := x;
     questionText := questionText st;
     optionsContainer := optionsContainer st;
     finalScoreSpan := finalScoreSpan st;
     totalQuestionsSpan := totalQuestionsSpan st;
     currentQuestions := currentQuestions st;
     currentQuestionIndex := currentQuestionIndex st; score := score st;
     answeredThisQuestion := answeredThisQuestion st; alerts := alerts st;
     requests := requests st; random_calls := random_calls st |}.

Definition set_questionText (x : string) (st : Page) : Page :=
  {| languageSelect_value := languageSelect_value st;
     languageSelectionSection_hidden := languageSelectionSection_hidden st;
     loadingIndicator_hidden := loadingIndicator_hidden st;
     quizContainer_hidden := quizContainer_hidden st;
     scoreCard_hidden := scoreCard_hidden st;
     nextButton_hidden := nextButton_hidden st; questionText := x;
     optionsContainer := optionsContainer st;
     finalScoreSpan := finalScoreSpan st;
     totalQuestionsSpan := totalQuestionsSpan st;
     currentQuestions := currentQuestions st;
     currentQuestionIndex := currentQuestionIndex st; score := score st;
     answeredThisQuestion := answeredThisQuestion st; alerts := alerts st;
     requests := requests st; random_calls := random_calls st |}.

Definition set_optionsContainer (x : list Button) (st : Page) : Page :=
  {| languageSelect_value := languageSelect_value st;
     languageSelectionSection_hidden := languageSelectionSection_hidden st;
     loadingIndicator_hidden := loadingIndicator_hidden st;
     quizContainer_hidden := quizContainer_hidden st;
     scoreCard_hidden := scoreCard_hidden st;
     nextButton_hidden := nextButton_hidden st;
     questionText := questionText st; optionsContainer := x;
     finalScoreSpan := finalScoreSpan st;
     totalQuestionsSpan := totalQuestionsSpan st;
     currentQuestions := currentQuestions st;
     currentQuestionIndex := currentQuestionIndex st; score := score st;
     answeredThisQuestion := answeredThisQuestion st; alerts := alerts st;
     requests := requests st; random_calls := random_calls st |}.

Definition set_finalScoreSpan (x : string) (st : Page) : Page :=
  {| languageSelect_value := languageSelect_value st;
     languageSelectionSection_hidden := languageSelectionSection_hidden st;
     loadingIndicator_hidden := loadingIndicator_hidden st;
     quizContainer_hidden := quizContainer_hidden st;
     scoreCard_hidden := scoreCard_hidden st;
     nextButton_hidden := nextButton_hidden st;
     questionText := questionText st;
     optionsContainer := optionsContainer st; finalScoreSpan := x;
     totalQuestionsSpan := totalQuestionsSpan st;
     currentQuestions := currentQuestions st;
     currentQuestionIndex := currentQuestionIndex st; score := score st;
     answeredThisQuestion := answeredThisQuestion st; alerts := alerts st;
     requests := requests st; random_calls := random_calls st |}.

Definition set_totalQuestionsSpan (x : string) (st : Page) : Page :=
  {| languageSelect_value := languageSelect_value st;
     languageSelectionSection_hidden := languageSelectionSection_hidden st;
     loadingIndicator_hidden := loadingIndicator_hidden st;
     quizContainer_hidden := quizContainer_hidden st;
     scoreCard_hidden := scoreCard_hidden st;
     nextButton_hidden := nextButton_hidden st;
     questionText := questionText st;
     optionsContainer := optionsContainer st;
     finalScoreSpan := finalScoreSpan st; totalQuestionsSpan := x;
     currentQuestions := currentQuestions st;
     currentQuestionIndex := currentQuestionIndex st; score := score st;
     answeredThisQuestion := answeredThisQuestion st; alerts := alerts st;
     requests := requests st; random_calls := random_calls st |}.

Definition set_currentQuestions (x : list value) (st : Page) : Page :=
  {| languageSelect_value := languageSelect_value st;
     languageSelectionSection_hidden := languageSelectionSection_hidden st;
     loadingIndicator_hidden := loadingIndicator_hidden st;
     quizContainer_hidden := quizContainer_hidden st;
     scoreCard_hidden := scoreCard_hidden st;
     nextButton_hidden := nextButton_hidden st;
     questionText := questionText st;
     optionsContainer := optionsContainer st;
     finalScoreSpan := finalScoreSpan st;
     totalQuestionsSpan := totalQuestionsSpan st; currentQuestions := x;
     currentQuestionIndex := currentQuestionIndex st; score := score st;
     answeredThisQuestion := answeredThisQuestion st; alerts := alerts st;
     requests := requests st; random_calls := random_calls st |}.

Definition set_currentQuestionIndex (x : nat) (st : Page) : Page :=
  {| languageSelect_value := languageSelect_value st;
     languageSelectionSection_hidden := languageSelectionSection_hidden st;
     loadingIndicator_hidden := loadingIndicator_hidden st;
     quizContainer_hidden := quizContainer_hidden st;
     scoreCard_hidden := scoreCard_hidden st;
     nextButton_hidden := nextButton_hidden st;
     questionText := questionText st;
     optionsContainer := optionsContainer st;
     finalScoreSpan := finalScoreSpan st;
     totalQuestionsSpan := totalQuestionsSpan st;
     currentQuestions := currentQuestions st; currentQuestionIndex := x;
     score := score st; answeredThisQuestion := answeredThisQuestion st;
     alerts := alerts st; requests := requests st;
     random_calls := random_calls st |}.

Definition set_score (x : nat) (st : Page) : Page :=
  {| languageSelect_value := languageSelect_value st;
     languageSelectionSection_hidden := languageSelectionSection_hidden st;
     loadingIndicator_hidden := loadingIndicator_hidden st;
     quizContainer_hidden := quizContainer_hidden st;
     scoreCard_hidden := scoreCard_hidden st;
     nextButton_hidden := nextButton_hidden st;
     questionText := questionText st;
     optionsContainer := optionsContainer st;
     finalScoreSpan := finalScoreSpan st;
     totalQuestionsSpan := totalQuestionsSpan st;
     currentQuestions := currentQuestions st;
     currentQuestionIndex := currentQuestionIndex st; score := x;
     answeredThisQuestion := answeredThisQuestion st; alerts := alerts st;
     requests := requests st; random_calls := random_calls st |}.

Definition set_answeredThisQuestion (x : bool) (st : Page) : Page :=
  {| languageSelect_value := languageSelect_value st;
     languageSelectionSection_hidden := languageSelectionSection_hidden st;
     loadingIndicator_hidden := loadingIndicator_hidden st;
     quizContainer_hidden := quizContainer_hidden st;
     scoreCard_hidden := scoreCard_hidden st;
     nextButton_hidden := nextButton_hidden st;
     questionText := questionText st;
     optionsContainer := optionsContainer st;
     finalScoreSpan := finalScoreSpan st;
     totalQuestionsSpan := totalQuestionsSpan st;
     currentQuestions := currentQuestions st;
     currentQuestionIndex := currentQuestionIndex st; score := score st;
     answeredThisQuestion := x; alerts := alerts st; requests := requests st;
     random_calls := random_calls st |}.

Definition set_alerts (x : list string) (st : Page) : Page :=
  {| languageSelect_value := languageSelect_value st;
     languageSelectionSection_hidden := languageSelectionSection_hidden st;
     loadingIndicator_hidden := loadingIndicator_hidden st;
     quizContainer_hidden := quizContainer_hidden st;
     scoreCard_hidden := scoreCard_hidden st;
     nextButton_hidden := nextButton_hidden st;
     questionText := questionText st;
     optionsContainer := optionsContainer st;
     finalScoreSpan := finalScoreSpan st;
     totalQuestionsSpan := totalQuestionsSpan st;
     currentQuestions := currentQuestions st;
     currentQuestionIndex := currentQuestionIndex st; score := score st;
     answeredThisQuestion := answeredThisQuestion st; alerts := x;
     requests := requests st; random_calls := random_calls st |}.

Definition set_requests (x : list string) (st : Page) : Page :=
  {| languageSelect_value := languageSelect_value st;
     languageSelectionSection_hidden := languageSelectionSection_hidden st;
     loadingIndicator_hidden := loadingIndicator_hidden st;
     quizContainer_hidden := quizContainer_hidden st;
     scoreCard_hidden := scoreCard_hidden st;
     nextButton_hidden := nextButton_hidden st;
     questionText := questionText st;
     optionsContainer := optionsContainer st;
     finalScoreSpan := finalScoreSpan st;
     totalQuestionsSpan := totalQuestionsSpan st;
     currentQuestions := currentQuestions st;
     currentQuestionIndex := currentQuestionIndex st; score := score st;
     answeredThisQuestion := answeredThisQuestion st; alerts := alerts st;
     requests := x; random_calls := random_calls st |}.

Definition set_random_calls (x : nat) (st : Page) : Page :=
  {| languageSelect_value := languageSelect_value st;
     languageSelectionSection_hidden := languageSelectionSection_hidden st;
     loadingIndicator_hidden := loadingIndicator_hidden st;
     quizContainer_hidden := quizContainer_hidden st;
     scoreCard_hidden := scoreCard_hidden st;
     nextButton_hidden := nextButton_hidden st;
     questionText := questionText st;
     optionsContainer := optionsContainer st;
     finalScoreSpan := finalScoreSpan st;
     totalQuestionsSpan := totalQuestionsSpan st;
     currentQuestions := currentQuestions st;
     currentQuestionIndex := currentQuestionIndex st; score := score st;
     answeredThisQuestion := answeredThisQuestion st; alerts := alerts st;
     requests := requests st; random_calls := x |}.

(** ** Statements: a state-and-exception monad over the page *)

Definition Js (A : Type) : Type := Page -> Completion A * Page.

Definition ret {A} (a : A) : Js A := fun st => (Returned a, st).

Definition throw {A} (e : Error) : Js A := fun st => (Thrown e, st).

Definition bind {A B} (m : Js A) (k : A -> Js B) : Js B :=
  fun st =>
    match m st with
    | (Returned a, st') => k a st'
    | (Thrown e, st') => (Thrown e, st')
    end.

(** An expression evaluated for its completion; it does not touch the page. *)
Definition eval {A} (c : Completion A) : Js A := fun st => (c, st).

(** A statement that only assigns. *)
Definition assign (f : Page -> Page) : Js unit := fun st => (Returned tt, f st).

Definition read {A} (f : Page -> A) : Js A := fun st => (Returned (f st), st).

(** [try { body } catch (error) { handler }] *)
Definition try_catch {A} (body : Js A) (handler : Error -> Js A) : Js A :=
  fun st =>
    match body st with
    | (Returned a, st') => (Returned a, st')
    | (Thrown e, st') => handler e st'
    end.

(** [try { body } finally { finalizer }]: the finalizer runs however the
    body completes, and the body's completion stands unless the finalizer
    throws. *)
Definition try_finally {A} (body : Js A) (finalizer : Js unit) : Js A :=
  fun st =>
    match body st with
    | (c, st') =>
        match finalizer st' with
        | (Returned _, st'') => (c, st'')
        | (Thrown e, st'') => (Thrown e, st'')
        end
    end.

Declare Scope js_scope.
Delimit Scope js_scope with js.
Notation "x <- c ; k" := (bind c (fun x => k))
  (at level 100, c at next level, right associativity) : js_scope.
Notation "c ;; k" := (bind c (fun _ => k))
  (at level 100, k at level 200, right associativity) : js_scope.

Definition alert (msg : string) : Js unit :=
  assign (fun st => set_alerts (alerts st ++ [msg]) st).

(** [Math.random()] *)
Definition Math_random_call `{Engine} : Js float :=
  fun st => (Returned (Math_random (random_calls st)),
             set_random_calls (S (random_calls st)) st).

(** ** The network

    What the awaited calls complete with.  [fetch] either rejects or gives
    a response; of a response the script reads [ok] and [status], and
    awaits [text()] (when [ok] is false) or [json()] (when it is true). *)
Record Response : Type := {
  ok : bool;
  status : N;
  text : Completion string;
  json : Completion value
}.

Inductive FetchOutcome : Type :=
| FetchRejected (e : Error)
| FetchResponse (r : Response).

(** The prompt of line 121. The rest of the request (URL, headers, the
    response schema) does not vary. *)
Definition prompt_for (language : string) : string :=
  "Generate 5 multiple-choice questions about " ++ language ++
  " programming. Each question should have exactly 4 options, and one correct answer. Provide the output as a JSON array of objects, where each object has 'question' (string), 'options' (an array of 4 strings), and 'answer' (string, the correct option). Ensure the JSON is valid and only contains the array of questions. Do not include any other text or formatting outside the JSON.".

(** [await fetch(apiUrl, ...)] with the outcome the network has for it. *)
Definition fetch (prompt : string) (net : FetchOutcome) : Js Response :=
  fun st =>
    let st' := set_requests (requests st ++ [prompt]) st in
    match net with
    | FetchRejected e => (Thrown e, st')
    | FetchResponse r => (Returned r, st')
    end.

(** [JSON.parse(v)]: the argument is converted to a string first. *)
Definition JSON_parse_value `{Engine} (v : value) : Completion value :=
  match JSON_parse (ToString v) with
  | Some parsed => Returned parsed
  | None => Thrown (SyntaxError_JSON (ToString v))
  end.

(** ** The question provider (lines 114-209) *)

(** The function returns a JavaScript array; the embedding returns the
    list of its elements. *)
Definition array_elements (v : value) : list value :=
  match v with
  | VArr elements => elements
  | _ => []
  end.

(** The [try] block, lines 156-199. *)
Definition generateQuestionsWithAI_try `{Engine} (language : string) (net : FetchOutcome)
  : Js (list value) :=
  (response <- fetch (prompt_for language) net;
   (if negb (ok response) then
      errorBody <- eval (text response);
      throw (Error_new ("HTTP error! status: " ++ pretty (status response)
                        ++ ", body: " ++ errorBody))
    else ret tt);;
   result <- eval (json response);
   present <- eval (has_text_part result);
   if present then
     jsonString <- eval (text_part result);
     parsedQuestions <- eval (JSON_parse_value jsonString);
     valid <- eval (questions_check parsedQuestions);
     if valid then ret (array_elements parsedQuestions)
     else
       alert "Failed to parse AI-generated questions. Please try again.";;
       ret []
   else
     alert "AI did not return valid questions. Please try again.";;
     ret [])%js.

(** The [catch] block, lines 200-204. *)
Definition generateQuestionsWithAI_catch `{Engine} (error : Error) : Js (list value) :=
  (alert ("Failed to generate questions: " ++ message error
          ++ ". Please check your network or try again.");;
   ret [])%js.

Definition generateQuestionsWithAI `{Engine} (language : string) (net : FetchOutcome)
  : Js (list value) :=
  (assign (set_loadingIndicator_hidden false);;
   assign (set_languageSelectionSection_hidden true);;
   try_finally
     (try_catch (generateQuestionsWithAI_try language net)
                generateQuestionsWithAI_catch)
     (assign (set_loadingIndicator_hidden true)))%js.

(** ** The quiz (lines 215-332) *)

(** [[...v]]: an array is copied, a string gives its characters, and
    nothing else the parser builds is iterable. *)
Definition spread (v : value) : Completion (list value) :=
  match v with
  | VArr elements => Returned elements
  | VStr s => Returned (characters s)
  | _ => Thrown (TypeError_not_iterable v)
  end.

(** [array.sort(comparefn)].  With a comparator that answers at random the
    order is up to the engine; this is the insertion sort engines run on
    short arrays: each element in turn moves left past the elements the
    comparator puts after it.  [placed] is the sorted prefix read from its
    right end. *)
Fixpoint sort_insert (comparefn : value -> value -> Js float)
    (element : value) (placed : list value) : Js (list value) :=
  match placed with
  | [] => ret [element]
  | tmp :: rest =>
      (order <- comparefn tmp element;
       if PrimFloat.ltb 0%float order then
         rest' <- sort_insert comparefn element rest;
         ret (tmp :: rest')
       else ret (element :: tmp :: rest))%js
  end.

Fixpoint sort_from (comparefn : value -> value -> Js float)
    (placed : list value) (remaining : list value) : Js (list value) :=
  match remaining with
  | [] => ret (rev placed)
  | element :: rest =>
      (placed' <- sort_insert comparefn element placed;
       sort_from comparefn placed' rest)%js
  end.

Definition Array_sort (comparefn : value -> value -> Js float) (elements : list value)
  : Js (list value) :=
  sort_from comparefn [] elements.

(** The comparator of line 250: [() => Math.random() - 0.5]. *)
Definition random_order `{Engine} (_ _ : value) : Js float :=
  (r <- Math_random_call;
   ret (PrimFloat.sub r 0.5%float))%js.

(** The button the [forEach] of lines 253-260 builds for an option. *)
Definition option_button `{Engine} (question option : value) : Button :=
  {| textContent := DOMString option;
     classList := ["option-button"];
     disabled := false;
     listener_option := option;
     listener_question := question |}.

(** [optionsContainer.appendChild(button)] *)
Definition append_option_button `{Engine} (question option : value) : Js unit :=
  assign (fun st =>
    set_optionsContainer (optionsContainer st ++ [option_button question option]) st).

Fixpoint forEach {A} (f : A -> Js unit) (l : list A) : Js unit :=
  match l with
  | [] => ret tt
  | x :: rest => (f x;; forEach f rest)%js
  end.

Definition loadQuestion `{Engine} : Js unit :=
  (assign (set_answeredThisQuestion false);;
   question <- read (fun st => nth (currentQuestionIndex st) (currentQuestions st) VUndefined);
   question_text <- eval (Get question "question");
   assign (set_questionText (DOMString question_text));;
   assign (set_optionsContainer []);;
   assign (set_nextButton_hidden true);;
   options <- eval (Get question "options");
   copy <- eval (spread options);
   shuffledOptions <- Array_sort random_order copy;
   forEach (append_option_button question) shuffledOptions)%js.

(** [selectedButton] is the position of the clicked button among the
    children of [optionsContainer]. *)
Definition selectOption (selectedButton : nat) (selectedOption correctAnswer : value)
  : Js unit :=
  (answered <- read answeredThisQuestion;
   if answered then ret tt else
   assign (set_answeredThisQuestion true);;
   assign (fun st => set_optionsContainer (map (set_disabled true) (optionsContainer st)) st);;
   (if strict_equal selectedOption correctAnswer then
      assign (fun st => set_optionsContainer
                (alter (classList_add "correct") selectedButton (optionsContainer st)) st);;
      assign (fun st => set_score (S (score st)) st)
    else
      assign (fun st => set_optionsContainer
                (alter (classList_add "incorrect") selectedButton (optionsContainer st)) st);;
      assign (fun st => set_optionsContainer
                (map (fun button =>
                        if strict_equal (VStr (textContent button)) correctAnswer
                        then classList_add "correct" button else button)
                     (optionsContainer st)) st));;
   assign (set_nextButton_hidden false))%js.

(** The click listener of the [i]-th option button (line 258). *)
Definition option_click (i : nat) : Js unit :=
  (button <- read (fun st => optionsContainer st !! i);
   match button with
   | None => ret tt
   | Some b =>
       answer <- eval (Get (listener_question b) "answer");
       selectOption i (listener_option b) answer
   end)%js.

Definition showResult : Js unit :=
  (assign (set_quizContainer_hidden true);;
   assign (set_scoreCard_hidden false);;
   assign (fun st => set_finalScoreSpan (pretty (score st)) st);;
   assign (fun st => set_totalQuestionsSpan (pretty (length (currentQuestions st))) st))%js.

Definition loadNextQuestion `{Engine} : Js unit :=
  (assign (fun st => set_currentQuestionIndex (S (currentQuestionIndex st)) st);;
   more <- read (fun st => currentQuestionIndex st <? length (currentQuestions st))%nat;
   if more then loadQuestion else showResult)%js.

(** [startQuiz] awaits the provider; [net] is what the network answers. *)
Definition startQuiz `{Engine} (net : FetchOutcome) : Js unit :=
  (selectedLanguage <- read languageSelect_value;
   questions <- generateQuestionsWithAI selectedLanguage net;
   assign (set_currentQuestions questions);;
   if (length questions =? 0)%nat then
     assign (set_languageSelectionSection_hidden false);;
     assign (set_quizContainer_hidden true);;
     assign (set_scoreCard_hidden true)
   else
     assign (set_currentQuestionIndex 0);;
     assign (set_score 0);;
     assign (set_languageSelectionSection_hidden true);;
     assign (set_quizContainer_hidden false);;
     assign (set_scoreCard_hidden true);;
     loadQuestion)%js.

Definition retakeQuiz `{Engine} (net : FetchOutcome) : Js unit :=
  startQuiz net.

Definition changeLanguage : Js unit :=
  (assign (set_languageSelectionSection_hidden false);;
   assign (set_quizContainer_hidden true);;
   assign (set_scoreCard_hidden true);;
   assign (set_loadingIndicator_hidden true))%js.

(** [window.onload] (lines 336-341), without the Firebase sign-in, which
    nothing in the quiz reads. *)
Definition window_onload : Js unit :=
  (assign (set_quizContainer_hidden true);;
   assign (set_scoreCard_hidden true);;
   assign (set_loadingIndicator_hidden true))%js.

(** ** What the properties are stated with *)

(** A well-formed question, in the words of the specification: a string
    [question], an [options] array of exactly four strings, and a string
    [answer] that is one of the options. *)
Definition WellFormedQuestion (q : value) : Prop :=
  ∃ (question o1 o2 o3 o4 answer : string),
    Get q "question" = Returned (VStr question) ∧
    Get q "options" = Returned (VArr [VStr o1; VStr o2; VStr o3; VStr o4]) ∧
    Get q "answer" = Returned (VStr answer) ∧
    answer ∈ [o1; o2; o3; o4].

(** The provider accepts an answer of the network when every step of the
    [try] block goes through: the response is a success, its body decodes,
    the text part is there, it parses to an array, and every element of the
    array is well formed. *)
Definition provider_accepts `{Engine} (net : FetchOutcome) (questions : list value) : Prop :=
  ∃ (r : Response) (result jsonString : value),
    net = FetchResponse r ∧
    ok r = true ∧
    json r = Returned result ∧
    has_text_part result = Returned true ∧
    text_part result = Returned jsonString ∧
    JSON_parse (ToString jsonString) = Some (VArr questions) ∧
    Forall WellFormedQuestion questions.

(** The ways the network's answer can fall short. *)
Inductive ProviderFailure `{Engine} : FetchOutcome → Prop :=
| fetch_rejected e :
    ProviderFailure (FetchRejected e)
| non_success_status r :
    ok r = false →
    ProviderFailure (FetchResponse r)
| undecodable_body r e :
    ok r = true → json r = Thrown e →
    ProviderFailure (FetchResponse r)
| missing_text_part r result :
    ok r = true → json r = Returned result →
    has_text_part result ≠ Returned true →
    ProviderFailure (FetchResponse r)
| unreadable_text_part r result e :
    ok r = true → json r = Returned result →
    has_text_part result = Returned true →
    text_part result = Thrown e →
    ProviderFailure (FetchResponse r)
| unparseable_text r result jsonString :
    ok r = true → json r = Returned result →
    has_text_part result = Returned true →
    text_part result = Returned jsonString →
    JSON_parse (ToString jsonString) = None →
    ProviderFailure (FetchResponse r)
| invalid_question_set r result jsonString parsedQuestions :
    ok r = true → json r = Returned result →
    has_text_part result = Returned true →
    text_part result = Returned jsonString →
    JSON_parse (ToString jsonString) = Some parsedQuestions →
    (∀ questions, parsedQuestions = VArr questions →
                  Exists (λ q, ¬ WellFormedQuestion q) questions) →
    ProviderFailure (FetchResponse r).

(** The page once the provider has run: the request is on the trace, the
    notices it raised have been shown, the spinner is hidden again and the
    language selection is still hidden. *)
Definition after_provider (language : string) (notices : list string) (st : Page) : Page :=
  set_loadingIndicator_hidden true
    (set_alerts (alerts st ++ notices)
       (set_requests (requests st ++ [prompt_for language])
          (set_languageSelectionSection_hidden true
             (set_loadingIndicator_hidden false st)))).

(** The page once [loadQuestion] has put up [question], with its text and
    the options in the order [shuffledOptions], after [draws] calls to
    [Math.random] in all. *)
Definition rendered `{Engine} (question : value) (question_text : string)
    (shuffledOptions : list value) (draws : nat) (st : Page) : Page :=
  set_optionsContainer (map (option_button question) shuffledOptions)
    (set_random_calls draws
       (set_nextButton_hidden true
          (set_questionText question_text
             (set_answeredThisQuestion false st)))).

(** The page once [startQuiz] has reset the quiz for [questions], before
    it loads the first of them. *)
Definition session_reset (questions : list value) (st : Page) : Page :=
  set_scoreCard_hidden true
    (set_quizContainer_hidden false
       (set_languageSelectionSection_hidden true
          (set_score 0
             (set_currentQuestionIndex 0
                (set_currentQuestions questions st))))).

(** The topic-selection screen: the language selection is shown and the
    spinner, the quiz and the score card are hidden. *)
Definition Idle (st : Page) : Prop :=
  languageSelectionSection_hidden st = false ∧
  loadingIndicator_hidden st = true ∧
  quizContainer_hidden st = true ∧
  scoreCard_hidden st = true.

(** A session is freshly started when [startQuiz] has just put it up with
    a non-empty list of questions. *)
Definition freshly_started `{Engine} (questions : list value) (st : Page) : Prop :=
  ∃ net before,
    startQuiz net before = (Returned tt, st) ∧
    currentQuestions st = questions ∧
    questions ≠ [].

(** The quiz is over when the index has run past the last question: the
    test [loadNextQuestion] makes after its increment. *)
Definition done (st : Page) : bool :=
  negb (currentQuestionIndex st <? length (currentQuestions st))%nat.

(** What the user does during a quiz: pick an option (clicking a button
    calls [selectOption] with the button, its option and the answer of the
    question on display) or press Next. *)
Inductive UserAction : Type :=
| Select (button : nat) (option : value)
| Next.

Definition perform `{Engine} (a : UserAction) : Js unit :=
  match a with
  | Select button option =>
      (question <- read (fun st => nth (currentQuestionIndex st) (currentQuestions st) VUndefined);
       answer <- eval (Get question "answer");
       selectOption button option answer)%js
  | Next => loadNextQuestion
  end.

Definition perform_all `{Engine} (actions : list UserAction) : Js unit :=
  forEach perform actions.

(** A complete run: one selection per question, each followed by Next. *)
Definition complete_run (picks : list (nat * value)) : list UserAction :=
  flat_map (fun pick => [Select pick.1 pick.2; Next]) picks.

(** How many times Next is pressed. *)
Fixpoint Next_count (actions : list UserAction) : nat :=
  match actions with
  | [] => 0
  | Next :: rest => S (Next_count rest)
  | Select _ _ :: rest => Next_count rest
  end.

(** How many of the picks are the correct answer of their question. *)
Fixpoint correct_selections (questions : list value) (picks : list (nat * value)) : nat :=
  match questions, picks with
  | q :: questions', pick :: picks' =>
      (match Get q "answer" with
       | Returned answer => if strict_equal pick.2 answer then 1 else 0
       | Thrown _ => 0
       end) + correct_selections questions' picks'
  | _, _ => 0
  end.

(** ** A runtime and a page to run examples on *)

Module Example.

Definition question (text a b c d answer : string) : value :=
  VObj [("question", VStr text);
        ("options", VArr [VStr a; VStr b; VStr c; VStr d]);
        ("answer", VStr answer)].

Definition q1 : value :=
  question "Which keyword defines a function in Python?" "def" "func" "fn" "lambda" "def".
Definition q2 : value :=
  question "What does len([1, 2]) return?" "1" "2" "3" "0" "2".

(** An element with only three options. *)
Definition q_short : value :=
  VObj [("question", VStr "Pick one");
        ("options", VArr [VStr "a"; VStr "b"; VStr "c"]);
        ("answer", VStr "a")].

(** The JSON text of a value built from strings without control
    characters, arrays, objects and [null]: the text [JSON.parse] reads
    back as that value. *)
Definition quote_mark : Ascii.ascii := Ascii.ascii_of_nat 34.
Definition backslash : Ascii.ascii := Ascii.ascii_of_nat 92.

Fixpoint escaped (s : string) : string :=
  match s with
  | EmptyString => EmptyString
  | String c rest =>
      if Ascii.eqb c quote_mark || Ascii.eqb c backslash
      then String backslash (String c (escaped rest))
      else String c (escaped rest)
  end.

Definition quoted (s : string) : string :=
  String quote_mark (escaped s) ++ String quote_mark "".

Fixpoint json_text (v : value) : string :=
  match v with
  | VStr s => quoted s
  | VArr elements =>
      "[" ++ (fix items (l : list value) : string :=
                match l with
                | [] => ""
                | [x] => json_text x
                | x :: rest => json_text x ++ "," ++ items rest
                end) elements ++ "]"
  | VObj properties =>
      "{" ++ (fix members (l : list (string * value)) : string :=
                match l with
                | [] => ""
                | [(k, x)] => quoted k ++ ":" ++ json_text x
                | (k, x) :: rest => quoted k ++ ":" ++ json_text x ++ "," ++ members rest
                end) properties ++ "}"
  | _ => "null"
  end.

Definition parsed_two : value := VArr [q1; q2].
Definition parsed_one : value := VArr [q1].
Definition parsed_empty : value := VArr [].
Definition parsed_with_null : value := VArr [q1; VNull].
Definition parsed_mixed : value := VArr [q1; q_short].

(** The response body around a text part. *)
Definition envelope (part_text : string) : value :=
  VObj [("candidates",
         VArr [VObj [("content",
                      VObj [("parts", VArr [VObj [("text", VStr part_text)]])])]])].

(** A success whose text part is the JSON of [parsed]. *)
Definition success (parsed : value) : Response :=
  {| ok := true; status := 200; text := Returned (json_text (envelope (json_text parsed)));
     json := Returned (envelope (json_text parsed)) |}.

Definition server_error : Response :=
  {| ok := false; status := 503; text := Returned "overloaded";
     json := Thrown (SyntaxError_JSON "overloaded") |}.

(** A stand-in for the runtime.  [JSON_parse] answers for the JSON text
    of the five arrays above; the draws of [Math_random] cycle
    through ten numbers below one; the messages are V8's.  The examples
    neither format nor parse a number. *)
Definition engine : Engine :=
  {| JSON_parse s :=
       find (fun v => String.eqb s (json_text v))
            [parsed_two; parsed_one; parsed_empty; parsed_with_null; parsed_mixed];
     Math_random n :=
       PrimFloat.div (number_of_nat ((7 * n + 3) mod 10)) 10%float;
     NumberToString _ := "NaN";
     StringToNumber _ := PrimFloat.nan;
     runtime_message e :=
       match e with
       | TypeError_read VNull p =>
           "Cannot read properties of null (reading '" ++ p ++ "')"
       | TypeError_read _ p =>
           "Cannot read properties of undefined (reading '" ++ p ++ "')"
       | TypeError_not_iterable _ => "object is not iterable"
       | SyntaxError_JSON _ => "Unexpected token in JSON"
       | Error_new msg | HostError msg => msg
       end |}.

(** The page as [window.onload] leaves it, with Python chosen. *)
Definition page : Page :=
  {| languageSelect_value := "Python";
     languageSelectionSection_hidden := false;
     loadingIndicator_hidden := true;
     quizContainer_hidden := true;
     scoreCard_hidden := true;
     nextButton_hidden := true;
     questionText := "";
     optionsContainer := [];
     finalScoreSpan := "";
     totalQuestionsSpan := "";
     currentQuestions := [];
     currentQuestionIndex := 0;
     score := 0;
     answeredThisQuestion := false;
     alerts := [];
     requests := [];
     random_calls := 0 |}.

(** What the network may answer. *)
Definition two_questions : FetchOutcome := FetchResponse (success parsed_two).
Definition no_question : FetchOutcome := FetchResponse (success parsed_empty).
Definition one_short_question : FetchOutcome := FetchResponse (success parsed_mixed).
Definition one_null_question : FetchOutcome := FetchResponse (success parsed_with_null).
Definition unavailable : FetchOutcome := FetchResponse server_error.

(** The page once the quiz on [q1] and [q2] has started. *)
Definition started : Page := (@startQuiz engine two_questions page).2.

(** The page after the first question has been answered with "func". *)
Definition answered : Page := (selectOption 1 (VStr "func") (VStr "def") started).2.

(** A quiz played to the end: "def" (right) and then "3" (wrong). *)
Definition played : list UserAction :=
  [Select 0 (VStr "def"); Next; Select 2 (VStr "3"); Next].

End Example.

(** ** The Firebase bootstrap (lines 46-98)

    [initializeFirebase] runs once, from [window.onload].  It reads three
    globals the hosting environment may define, calls the Firebase SDK, and
    keeps what it gets in three module variables ([db], [auth], [userId])
    that the quiz never reads.  The SDK and [crypto.randomUUID] are an
    interface, [Platform]; what the script writes to the console is kept,
    since it is all a failure leaves behind. *)

(** The globals [__app_id], [__firebase_config] and [__initial_auth_token]:
    [None] when [typeof] answers ['undefined']. *)
Record Globals : Type := {
  __app_id : option value;
  __firebase_config : option value;
  __initial_auth_token : option value
}.

Class Platform : Type := {
  FirebaseApp : Type;
  Firestore : Type;
  Auth : Type;
  initializeApp : value -> Completion FirebaseApp;
  getFirestore : FirebaseApp -> Completion Firestore;
  getAuth : FirebaseApp -> Completion Auth;
  (** registering the listener *)
  onAuthStateChanged : Auth -> Completion unit;
  (** the awaited sign-in: when it resolves, the [auth.currentUser] the
      handle then has *)
  signInWithCustomToken : Auth -> value -> Completion value;
  signInAnonymously : Auth -> Completion value;
  (** the n-th identifier [crypto.randomUUID()] returns on this page; the
      page is taken to run where [crypto.randomUUID] exists *)
  crypto_randomUUID : nat -> string
}.

(** What is thrown inside the bootstrap: an error of the kinds above, or
    the [TypeError] of [Object.keys] on [null] or [undefined]. *)
Inductive BootstrapError : Type :=
| Raised (e : Error)
| TypeError_not_an_object (v : value).

Inductive ConsoleEntry : Type :=
| console_error (label : string) (error : option BootstrapError)
| console_log (label : string) (data : value).

Record Bootstrap `{Platform} : Type := {
  db : option Firestore;
  auth : option Auth;
  (** [null] until a listener call sets it *)
  userId : value;
  (** whether the listener of line 68 has been registered *)
  auth_listener : bool;
  console : list ConsoleEntry;
  (** how many times [crypto.randomUUID] has been called *)
  uuid_calls : nat
}.

Definition set_db `{Platform} (x : option Firestore) (s : Bootstrap) : Bootstrap :=
  {| db := x; auth := auth s; userId := userId s; auth_listener := auth_listener s;
     console := console s; uuid_calls := uuid_calls s |}.

Definition set_auth `{Platform} (x : option Auth) (s : Bootstrap) : Bootstrap :=
  {| db := db s; auth := x; userId := userId s; auth_listener := auth_listener s;
     console := console s; uuid_calls := uuid_calls s |}.


Definition set_auth_listener `{Platform} (x : bool) (s : Bootstrap) : Bootstrap :=
  {| db := db s; auth := auth s; userId := userId s; auth_listener := x;
     console := console s; uuid_calls := uuid_calls s |}.

Definition log `{Platform} (entry : ConsoleEntry) (s : Bootstrap) : Bootstrap :=
  {| db := db s; auth := auth s; userId := userId s; auth_listener := auth_listener s;
     console := console s ++ [entry]; uuid_calls := uuid_calls s |}.


(** [Object.keys(v).length]: the own properties of an object, the indices
    of an array or of a string, nothing for a number or a boolean. *)
Definition Object_keys_length (v : value) : BootstrapError + nat :=
  match v with
  | VUndefined | VNull => inl (TypeError_not_an_object v)
  | VObj properties => inr (length properties)
  | VArr elements => inr (length elements)
  | VStr s => inr (String.length s)
  | VBool _ | VNum _ => inr 0
  end.

(** An SDK call inside a [try] block: [k] goes on with what it returns. *)
Definition calling `{Platform} {A} (c : Completion A) (s : Bootstrap)
    (k : A -> (BootstrapError + unit) * Bootstrap) : (BootstrapError + unit) * Bootstrap :=
  match c with
  | Returned a => k a
  | Thrown e => (inl (Raised e), s)
  end.

(** The [try] block, lines 48-93. *)
Definition initializeFirebase_try `{Engine} `{Platform} (g : Globals) (s : Bootstrap)
  : (BootstrapError + unit) * Bootstrap :=
  let appId := default (VStr "default-app-id") (__app_id g) in
  let text := ToString (default (VStr "{}") (__firebase_config g)) in
  match JSON_parse text with
  | None => (inl (Raised (SyntaxError_JSON text)), s)
  | Some firebaseConfig =>
      match Object_keys_length firebaseConfig with
      | inl e => (inl e, s)
      | inr keys =>
          if keys =? 0 then
            (inr tt,
             log (console_error
                    "Firebase config is missing or empty. Cannot initialize Firebase."
                    None) s)
          else
            calling (initializeApp firebaseConfig) s (fun app =>
            calling (getFirestore app) s (fun firestore =>
            let s1 := set_db (Some firestore) s in
            calling (getAuth app) s1 (fun handle =>
            let s2 := set_auth (Some handle) s1 in
            calling (onAuthStateChanged handle) s2 (fun _ =>
            (inr tt, set_auth_listener true s2)))))
      end
  end.

(** [initializeFirebase]: the [catch] block of lines 94-97 logs whatever
    the [try] block throws. *)
Definition initializeFirebase `{Engine} `{Platform} (g : Globals) (s : Bootstrap)
  : (BootstrapError + unit) * Bootstrap :=
  match initializeFirebase_try g s with
  | (inl error, s') =>
      (inr tt, log (console_error "Error initializing Firebase:" (Some error)) s')
  | (inr _, s') => (inr tt, s')
  end.




(** ** Further vocabulary *)

(** What playing a quiz leaves alone: no notice is shown and no request
    sent, the questions held and the chosen language stay, and the
    language selection and the spinner stay as they are. *)
Definition outside_untouched (st st' : Page) : Prop :=
  alerts st' = alerts st ∧
  requests st' = requests st ∧
  currentQuestions st' = currentQuestions st ∧
  languageSelect_value st' = languageSelect_value st ∧
  languageSelectionSection_hidden st' = languageSelectionSection_hidden st ∧
  loadingIndicator_hidden st' = loadingIndicator_hidden st.

(** The classes of the button at position [j] once the button at position
    [i] has been clicked first: the clicked button is marked with the
    outcome; after a wrong choice the buttons that show the answer are
    marked correct. *)
Definition marks_after_click (i j : nat) (hit : bool) (shows_answer : bool) : list string :=
  "option-button" ::
  (if bool_decide (j = i) then [if hit then "correct" else "incorrect"]
   else if negb hit && shows_answer then ["correct"] else []).

(** ** A host to run the bootstrap on *)

Module ExampleHost.

(** The runtime of [Example], which also parses the empty object. *)
Definition engine : Engine :=
  {| JSON_parse s :=
       if String.eqb s "{}" then Some (VObj []) else @JSON_parse Example.engine s;
     Math_random := @Math_random Example.engine;
     NumberToString := @NumberToString Example.engine;
     StringToNumber := @StringToNumber Example.engine;
     runtime_message := @runtime_message Example.engine |}.

(** An SDK whose calls all succeed, with handles that carry nothing, and
    an anonymous sign-in that yields a user without [uid]. *)
Definition platform : Platform :=
  {| FirebaseApp := unit;
     Firestore := unit;
     Auth := unit;
     initializeApp _ := Returned tt;
     getFirestore _ := Returned tt;
     getAuth _ := Returned tt;
     onAuthStateChanged _ := Returned tt;
     signInWithCustomToken _ _ := Returned (VObj [("uid", VStr "user-1")]);
     signInAnonymously _ := Returned (VObj []);
     crypto_randomUUID n := "00000000-0000-4000-8000-00000000000" ++ pretty (n mod 10) |}.

(** No global is defined. *)
Definition bare : Globals :=
  {| __app_id := None; __firebase_config := None; __initial_auth_token := None |}.

(** The module variables before [initializeFirebase] runs. *)
Definition unset : @Bootstrap platform :=
  {| db := None; auth := None; userId := VNull; auth_listener := false;
     console := []; uuid_calls := 0 |}.

(** A success whose text part is the empty object. *)
Definition object_payload : Response :=
  {| ok := true; status := 200;
     text := Returned (Example.json_text (Example.envelope "{}"));
     json := Returned (Example.envelope "{}") |}.

(** A success whose text part is not JSON. *)
Definition prose_payload : Response :=
  {| ok := true; status := 200;
     text := Returned (Example.json_text (Example.envelope "Here are your questions"));
     json := Returned (Example.envelope "Here are your questions") |}.

(** A success whose body has no [candidates]. *)
Definition blocked : Response :=
  {| ok := true; status := 200;
     text := Returned (Example.json_text (VObj [("promptFeedback", VObj [])]));
     json := Returned (VObj [("promptFeedback", VObj [])]) |}.

End ExampleHost.

(** * Properties *)

(** ** The validation accepts exactly the well-formed questions *)

Lemma typeof_string_true v : typeof_string v = true → ∃ s, v = VStr s.
Proof. destruct v; simpl; intros Hs; try discriminate. eauto. Qed.

Lemma Array_includes_strings (answer o1 o2 o3 o4 : string) :
  Array_includes [VStr o1; VStr o2; VStr o3; VStr o4] (VStr answer) = true
  ↔ answer ∈ [o1; o2; o3; o4].
Proof.
  unfold Array_includes. simpl. rewrite !orb_true_iff, !String.eqb_eq.
  rewrite !elem_of_cons, elem_of_nil. intuition congruence.
Qed.

Lemma question_check_well_formed q :
  question_check q = Returned true ↔ WellFormedQuestion q.
Proof.
  split.
  - unfold question_check, cbind.
    destruct (Get q "question") as [question|] eqn:Hquestion; [|discriminate].
    destruct (typeof_string question) eqn:Hstring; [|discriminate]. simpl.
    apply typeof_string_true in Hstring as [text ->].
    destruct (Get q "options") as [options|] eqn:Hoptions; [|discriminate].
    destruct options as [| | | | |opts|]; try discriminate.
    destruct (length opts =? 4)%nat eqn:Hlength; [|discriminate]. simpl.
    apply Nat.eqb_eq in Hlength.
    destruct (forallb typeof_string opts) eqn:Hall; [|discriminate]. simpl.
    destruct (Get q "answer") as [answer|] eqn:Hanswer; [|discriminate].
    destruct (typeof_string answer) eqn:Hstring; [|discriminate]. simpl.
    apply typeof_string_true in Hstring as [chosen ->].
    destruct opts as [|a [|b [|c [|d [|]]]]]; try discriminate.
    simpl in Hall. rewrite !andb_true_iff in Hall.
    destruct Hall as (Ha & Hb & Hc & Hd & _).
    apply typeof_string_true in Ha as [o1 ->], Hb as [o2 ->],
      Hc as [o3 ->], Hd as [o4 ->].
    intros [= Hincludes]. apply Array_includes_strings in Hincludes.
    exists text, o1, o2, o3, o4, chosen. done.
  - intros (text & o1 & o2 & o3 & o4 & chosen & Hquestion & Hoptions & Hanswer & Hin).
    unfold question_check, cbind. rewrite Hquestion. simpl.
    rewrite Hoptions. simpl. rewrite Hanswer. simpl.
    f_equal. by apply Array_includes_strings.
Qed.

(** On a question that is not well formed the check answers false, or
    throws: it does not answer true. *)
Lemma question_check_ill_formed q :
  ¬ WellFormedQuestion q →
  question_check q = Returned false ∨ ∃ e, question_check q = Thrown e.
Proof.
  intros Hill. destruct (question_check q) as [[]|e] eqn:Hcheck; eauto.
  by apply question_check_well_formed in Hcheck.
Qed.

(** The only elements the check throws on are [null] and [undefined]. *)
Lemma question_check_throws q e :
  question_check q = Thrown e → q = VNull ∨ q = VUndefined.
Proof.
  destruct q; eauto; unfold question_check, Get, cbind; simpl;
    try discriminate;
    repeat (match goal with
            | |- context [match ?x with _ => _ end] => destruct x
            end; simpl; try discriminate).
Qed.

Lemma Array_every_true (f : value → Completion bool) l :
  Array_every f l = Returned true ↔ Forall (λ x, f x = Returned true) l.
Proof.
  induction l as [|x l IH]; simpl.
  - split; auto.
  - rewrite Forall_cons, <- IH. unfold cbind.
    destruct (f x) as [[]|]; intuition congruence.
Qed.

Lemma questions_check_true parsedQuestions :
  questions_check parsedQuestions = Returned true ↔
  ∃ questions, parsedQuestions = VArr questions ∧ Forall WellFormedQuestion questions.
Proof.
  destruct parsedQuestions as [| | | | |questions|]; simpl;
    try (split; [discriminate | intros (? & ? & _); discriminate]).
  rewrite Array_every_true. split.
  - intros Hall. exists questions. split; [done|].
    eapply Forall_impl; [exact Hall|]. intros q. apply question_check_well_formed.
  - intros (l & [= <-] & Hall).
    eapply Forall_impl; [exact Hall|]. intros q. apply question_check_well_formed.
Qed.

(** ** The provider, case by case *)

Section Provider.
Context `{Engine}.

Lemma ill_formed_element questions :
  ¬ Forall WellFormedQuestion questions →
  Exists (λ q, ¬ WellFormedQuestion q) questions.
Proof.
  induction questions as [|q questions IH]; intros Hnot.
  - destruct Hnot. constructor.
  - destruct (question_check q) as [[]|e] eqn:Hcheck.
    + apply question_check_well_formed in Hcheck.
      apply Exists_cons_tl, IH. intros Hall. apply Hnot. by constructor.
    + apply Exists_cons_hd. intros Hq.
      apply question_check_well_formed in Hq. congruence.
    + apply Exists_cons_hd. intros Hq.
      apply question_check_well_formed in Hq. congruence.
Qed.

Lemma well_formed_all_or_ill_formed_one questions :
  Forall WellFormedQuestion questions →
  Exists (λ q, ¬ WellFormedQuestion q) questions → False.
Proof.
  intros Hall Hex. apply Exists_exists in Hex as (q & Hin & Hill).
  rewrite Forall_forall in Hall. eauto.
Qed.

(** A failure and an acceptance exclude each other. *)
Lemma failure_not_accepted net questions :
  ProviderFailure net → provider_accepts net questions → False.
Proof.
  intros Hfail (r & result & jsonString & -> & Hok & Hjson & Hpart & Htext & Hparse & Hall).
  inversion Hfail as [ | | | | | |? ? ? parsedQuestions ? ? ? ? ? Hill];
    subst; try congruence.
  assert (parsedQuestions = VArr questions) as Harray by congruence.
  eapply well_formed_all_or_ill_formed_one; eauto.
Qed.

Lemma accepted_questions_unique net questions questions' :
  provider_accepts net questions → provider_accepts net questions' →
  questions = questions'.
Proof.
  intros (r & result & jsonString & -> & _ & Hjson & _ & Htext & Hparse & _)
         (r' & result' & jsonString' & [= <-] & _ & Hjson' & _ & Htext' & Hparse' & _).
  congruence.
Qed.

(** Every call returns; it returns the parsed questions, silently, when
    the provider accepts, and the empty list after exactly one notice
    when the network's answer falls short. *)
Lemma generateQuestionsWithAI_cases language net st :
  ∃ questions notices,
    generateQuestionsWithAI language net st
      = (Returned questions, after_provider language notices st) ∧
    ((notices = [] ∧ provider_accepts net questions) ∨
     (ProviderFailure net ∧ questions = [] ∧ ∃ notice, notices = [notice])).
Proof.
  unfold generateQuestionsWithAI, generateQuestionsWithAI_try,
    generateQuestionsWithAI_catch, try_finally, try_catch, bind, fetch,
    alert, assign, eval, ret, throw, after_provider.
  destruct net as [e|r]; simpl.
  { eexists [], [_]. split; [reflexivity|]. right. eauto using fetch_rejected. }
  destruct (ok r) eqn:Hok; simpl.
  2: { destruct (text r) as [errorBody|e]; simpl;
         (eexists [], [_]; split; [reflexivity|]; right;
          eauto using non_success_status). }
  destruct (json r) as [result|e] eqn:Hjson; simpl.
  2: { eexists [], [_]. split; [reflexivity|]. right. eauto using undecodable_body. }
  destruct (has_text_part result) as [[]|e] eqn:Hpart; simpl.
  2,3: eexists [], [_]; (split; [reflexivity|]); right;
       split; [|by eauto]; eapply missing_text_part; eauto; congruence.
  destruct (text_part result) as [jsonString|e] eqn:Htext; simpl.
  2: { eexists [], [_]. split; [reflexivity|]. right.
       eauto using unreadable_text_part. }
  unfold JSON_parse_value.
  destruct (JSON_parse (ToString jsonString)) as [parsedQuestions|] eqn:Hparse; simpl.
  2: { eexists [], [_]. split; [reflexivity|]. right.
       eauto using unparseable_text. }
  destruct (questions_check parsedQuestions) as [[]|e] eqn:Hcheck; simpl.
  - apply questions_check_true in Hcheck as (questions & -> & Hall).
    exists questions, []. split.
    + simpl. rewrite app_nil_r. reflexivity.
    + left. split; [done|]. by exists r, result, jsonString.
  - eexists [], [_]. split; [reflexivity|]. right. split; [|by eauto].
    eapply invalid_question_set; eauto.
    intros questions ->. apply ill_formed_element. intros Hall.
    assert (questions_check (VArr questions) = Returned true) as Htrue
      by (apply questions_check_true; eauto).
    congruence.
  - eexists [], [_]. split; [reflexivity|]. right. split; [|by eauto].
    eapply invalid_question_set; eauto.
    intros questions ->. apply ill_formed_element. intros Hall.
    assert (questions_check (VArr questions) = Returned true) as Htrue
      by (apply questions_check_true; eauto).
    congruence.
Qed.

Lemma generateQuestionsWithAI_accepted language net questions st :
  provider_accepts net questions →
  generateQuestionsWithAI language net st
    = (Returned questions, after_provider language [] st).
Proof.
  intros Haccepts.
  destruct (generateQuestionsWithAI_cases language net st)
    as (returned & notices & Hrun & [[-> Haccepts'] | [Hfail _]]).
  - by rewrite (accepted_questions_unique net questions returned).
  - destruct (failure_not_accepted net questions); done.
Qed.

Lemma generateQuestionsWithAI_failure language net st :
  ProviderFailure net →
  ∃ notice,
    generateQuestionsWithAI language net st
      = (Returned [], after_provider language [notice] st).
Proof.
  intros Hfail.
  destruct (generateQuestionsWithAI_cases language net st)
    as (returned & notices & Hrun & [[-> Haccepts] | (_ & -> & notice & ->)]).
  - destruct (failure_not_accepted net returned); done.
  - by exists notice.
Qed.

(** C2. For every answer of the network the provider accepts (the text
    part parses to an array of well-formed questions), the call returns,
    without a notice, the parsed array itself: a sequence of the same
    length in which the answer of every element is one of its options. *)
Theorem C2_valid_response_returns_questions language net questions st :
  provider_accepts net questions →
  ∃ returned,
    generateQuestionsWithAI language net st
      = (Returned returned, after_provider language [] st) ∧
    returned = questions ∧
    length returned = length questions ∧
    Forall (λ q, ∃ options answer,
                   Get q "options" = Returned (VArr options) ∧
                   Get q "answer" = Returned answer ∧
                   answer ∈ options) returned.
Proof.
  intros Haccepts. exists questions.
  split; [by apply generateQuestionsWithAI_accepted|]. repeat split; [].
  destruct Haccepts as (_ & _ & _ & _ & _ & _ & _ & _ & _ & Hall).
  eapply Forall_impl; [exact Hall|].
  intros q (text & o1 & o2 & o3 & o4 & answer & _ & Hoptions & Hanswer & Hin).
  exists [VStr o1; VStr o2; VStr o3; VStr o4], (VStr answer).
  repeat split; [done..|].
  change (VStr answer ∈ VStr <$> [o1; o2; o3; o4]).
  by apply list_elem_of_fmap_2.
Qed.

(** C1, as the code has it.  Validation is all-or-nothing: when the text
    part parses to an array with at least one element that is not well
    formed, the call does not fail; it returns the empty list, none of
    the array's questions, after exactly one notice: the one of the
    validation, or the one of the [catch] block when the check throws. *)
Theorem C1_ill_formed_element_empties_result
    language r result jsonString questions st :
  ok r = true →
  json r = Returned result →
  has_text_part result = Returned true →
  text_part result = Returned jsonString →
  JSON_parse (ToString jsonString) = Some (VArr questions) →
  Exists (λ q, ¬ WellFormedQuestion q) questions →
  ∃ notice,
    generateQuestionsWithAI language (FetchResponse r) st
      = (Returned [], after_provider language [notice] st) ∧
    (notice = "Failed to parse AI-generated questions. Please try again." ∨
     ∃ e, Array_every question_check questions = Thrown e ∧
          notice = "Failed to generate questions: " ++ message e
                   ++ ". Please check your network or try again.").
Proof.
  intros Hok Hjson Hpart Htext Hparse Hill.
  unfold generateQuestionsWithAI, generateQuestionsWithAI_try,
    generateQuestionsWithAI_catch, try_finally, try_catch, bind, fetch,
    alert, assign, eval, ret, throw, after_provider, JSON_parse_value.
  simpl. rewrite Hok. simpl. rewrite Hjson. simpl. rewrite Hpart. simpl.
  rewrite Htext. simpl. rewrite Hparse. simpl.
  destruct (Array_every question_check questions) as [[]|e] eqn:Hcheck; simpl.
  - apply Array_every_true in Hcheck.
    destruct (well_formed_all_or_ill_formed_one questions); [|done].
    eapply Forall_impl; [exact Hcheck|]. intros q. apply question_check_well_formed.
  - eexists. split; [reflexivity|]. by left.
  - eexists. split; [reflexivity|]. right. by exists e.
Qed.

(** C7, as the code has it.  On a response whose status is not a success
    the [try] block throws an error whose message carries the status and
    the body; the [catch] block of the call itself handles it, so the
    call returns the empty list, after one notice that carries both. *)
Theorem C7_non_success_status_is_reported language r body st :
  ok r = false →
  text r = Returned body →
  let report := "HTTP error! status: " ++ pretty (status r) ++ ", body: " ++ body in
  (generateQuestionsWithAI_try language (FetchResponse r) st).1
    = Thrown (Error_new report) ∧
  generateQuestionsWithAI language (FetchResponse r) st
    = (Returned [],
       after_provider language
         ["Failed to generate questions: " ++ report
          ++ ". Please check your network or try again."] st).
Proof.
  intros Hok Hbody report.
  unfold generateQuestionsWithAI, generateQuestionsWithAI_try,
    generateQuestionsWithAI_catch, try_finally, try_catch, bind, fetch,
    alert, assign, eval, ret, throw, after_provider.
  simpl. rewrite Hok. simpl. rewrite Hbody. simpl. done.
Qed.

(** C10. The provider is total at its boundary: whatever the network
    answers, the call returns, it never throws.  The answer is either one
    the provider accepts or falls short in one of the listed ways
    (rejected request, status that is not a success, body that does not
    decode, missing or unreadable text part, text that does not parse,
    array that fails the validation); what the call returns is empty
    unless the provider accepts, and empty on each way of falling short:
    the returned list is all the caller has to tell the two apart. *)
Theorem C10_provider_returns_normally language net st :
  ∃ questions st',
    generateQuestionsWithAI language net st = (Returned questions, st') ∧
    (provider_accepts net questions ∨ ProviderFailure net) ∧
    (questions = [] ∨ provider_accepts net questions) ∧
    (ProviderFailure net → questions = []).
Proof.
  destruct (generateQuestionsWithAI_cases language net st)
    as (questions & notices & Hrun & [[-> Haccepts] | (Hfail & -> & _)]).
  - eexists _, _. split; [exact Hrun|]. split; [by left|]. split; [by right|].
    intros Hfail. destruct (failure_not_accepted net questions); done.
  - eexists _, _. split; [exact Hrun|]. split; [by right|]. split; [by left|]. done.
Qed.

End Provider.

(** ** The shuffle *)

Section Quiz.
Context `{Engine}.

Lemma set_random_calls_same st : set_random_calls (random_calls st) st = st.
Proof. by destruct st. Qed.

Lemma random_order_draws a b st :
  random_order a b st
    = (Returned (PrimFloat.sub (Math_random (random_calls st)) 0.5%float),
       set_random_calls (S (random_calls st)) st).
Proof. reflexivity. Qed.

(** Inserting an element keeps every element, whatever the comparator
    draws, and draws at least once when there is something to compare
    with. *)
Lemma sort_insert_random element placed :
  ∀ st, ∃ l draws,
    sort_insert random_order element placed st
      = (Returned l, set_random_calls draws st) ∧
    l ≡ₚ element :: placed ∧
    random_calls st + min 1 (length placed) ≤ draws.
Proof.
  induction placed as [|tmp rest IH]; intros st; simpl.
  - exists [element], (random_calls st). unfold ret.
    rewrite set_random_calls_same. split; [done|]. split; [done|lia].
  - unfold bind at 1. rewrite random_order_draws.
    destruct (PrimFloat.ltb _ _); unfold bind, ret.
    + destruct (IH (set_random_calls (S (random_calls st)) st))
        as (l & draws & Hrun & Hperm & Hdraws).
      rewrite Hrun. exists (tmp :: l), draws. simpl in *.
      split; [done|]. split; [|lia].
      rewrite Hperm. apply Permutation_swap.
    + exists (element :: tmp :: rest), (S (random_calls st)).
      split; [done|]. split; [done|lia].
Qed.

Lemma sort_from_random remaining :
  ∀ placed st, ∃ l draws,
    sort_from random_order placed remaining st
      = (Returned l, set_random_calls draws st) ∧
    l ≡ₚ placed ++ remaining ∧
    random_calls st + (length remaining - (if placed is [] then 1 else 0)) ≤ draws.
Proof.
  induction remaining as [|element rest IH]; intros placed st; simpl.
  - exists (rev placed), (random_calls st). unfold ret.
    rewrite set_random_calls_same. split; [done|].
    split; [|lia]. rewrite app_nil_r. symmetry. apply Permutation_rev.
  - unfold bind.
    destruct (sort_insert_random element placed st)
      as (placed' & draws & -> & Hperm & Hdraws).
    destruct (IH placed' (set_random_calls draws st))
      as (l & draws' & Hrun & Hperm' & Hdraws').
    rewrite Hrun. exists l, draws'. split; [done|]. split.
    + rewrite Hperm', Hperm. simpl. by rewrite Permutation_middle.
    + simpl in Hdraws'. destruct placed' as [|x placed''].
      * apply Permutation_nil_cons in Hperm as [].
      * destruct placed; simpl in *; lia.
Qed.

(** The shuffle of line 250 returns a permutation of the array, and asks
    [Math.random] at least once per element after the first. *)
Lemma Array_sort_random elements st :
  ∃ shuffled draws,
    Array_sort random_order elements st
      = (Returned shuffled, set_random_calls draws st) ∧
    shuffled ≡ₚ elements ∧
    random_calls st + (length elements - 1) ≤ draws.
Proof. apply (sort_from_random elements [] st). Qed.

Lemma forEach_append_option_button question options :
  ∀ st,
    forEach (append_option_button question) options st
      = (Returned tt,
         set_optionsContainer
           (optionsContainer st ++ map (option_button question) options) st).
Proof.
  induction options as [|option rest IH]; intros st; simpl.
  - unfold ret. rewrite app_nil_r. by destruct st.
  - unfold bind, append_option_button, assign. rewrite IH. simpl.
    by rewrite <- app_assoc.
Qed.

(** [loadQuestion] on a question with a text and an array of options. *)
Lemma loadQuestion_renders st question question_text options :
  nth (currentQuestionIndex st) (currentQuestions st) VUndefined = question →
  Get question "question" = Returned question_text →
  Get question "options" = Returned (VArr options) →
  ∃ shuffled draws,
    loadQuestion st
      = (Returned tt, rendered question (DOMString question_text) shuffled draws st) ∧
    shuffled ≡ₚ options ∧
    random_calls st + (length options - 1) ≤ draws.
Proof.
  intros Hcurrent Htext Hoptions.
  unfold loadQuestion, bind, assign, read, eval. simpl.
  rewrite Hcurrent, Htext. simpl. rewrite Hoptions. simpl.
  match goal with
  | |- context [Array_sort random_order options ?st'] =>
      destruct (Array_sort_random options st')
        as (shuffled & draws & -> & Hperm & Hdraws)
  end.
  rewrite forEach_append_option_button.
  exists shuffled, draws. split; [|done]. reflexivity.
Qed.

Lemma well_formed_options question :
  WellFormedQuestion question →
  ∃ (question_text answer : string) (options : list string),
    Get question "question" = Returned (VStr question_text) ∧
    Get question "options" = Returned (VArr (VStr <$> options)) ∧
    Get question "answer" = Returned (VStr answer) ∧
    length options = 4 ∧
    answer ∈ options.
Proof.
  intros (question_text & o1 & o2 & o3 & o4 & answer & Htext & Hoptions & Hanswer & Hin).
  by exists question_text, answer, [o1; o2; o3; o4].
Qed.

Lemma DOMString_strings (options : list string) :
  DOMString <$> (VStr <$> options) = options.
Proof. induction options as [|o options IH]; simpl; [done|]. by f_equal. Qed.

Lemma rendered_texts question question_text shuffled draws st :
  textContent <$> optionsContainer (rendered question question_text shuffled draws st)
    = DOMString <$> shuffled.
Proof. simpl. by rewrite <- list_fmap_compose. Qed.

(** C9. Every question [loadQuestion] puts up (the only place where
    options are presented) shows a permutation of the question's own
    options: the four texts of the buttons are the four options, none
    dropped, doubled or changed; each button selects the text it shows;
    and the order is computed anew, from fresh draws of [Math.random]. *)
Theorem C9_presented_options_are_a_permutation st question :
  nth (currentQuestionIndex st) (currentQuestions st) VUndefined = question →
  WellFormedQuestion question →
  ∃ st' (options : list string),
    loadQuestion st = (Returned tt, st') ∧
    Get question "options" = Returned (VArr (VStr <$> options)) ∧
    textContent <$> optionsContainer st' ≡ₚ options ∧
    length (optionsContainer st') = 4 ∧
    Forall (λ button, listener_option button = VStr (textContent button) ∧
                      listener_question button = question)
           (optionsContainer st') ∧
    random_calls st + 3 ≤ random_calls st'.
Proof.
  intros Hcurrent Hwf.
  destruct (well_formed_options question Hwf)
    as (question_text & answer & options & Htext & Hoptions & _ & Hlength & _).
  destruct (loadQuestion_renders st question _ _ Hcurrent Htext Hoptions)
    as (shuffled & draws & Hrun & Hperm & Hdraws).
  rewrite length_fmap, Hlength in Hdraws.
  eexists _, options. split; [exact Hrun|]. split; [done|].
  rewrite rendered_texts. repeat split.
  - rewrite Hperm. by rewrite DOMString_strings.
  - simpl. rewrite length_map, Hperm, length_fmap. done.
  - simpl. apply Forall_fmap, Forall_forall. intros option Hin. simpl.
    split; [|done]. rewrite Hperm in Hin.
    apply list_elem_of_fmap in Hin as (o & -> & _). done.
  - simpl. lia.
Qed.

(** ** Starting a quiz *)

Lemma startQuiz_accepted net questions st :
  provider_accepts net questions →
  questions ≠ [] →
  Forall WellFormedQuestion questions ∧
  ∃ question question_text shuffled draws,
    startQuiz net st
      = (Returned tt,
         rendered question question_text shuffled draws
           (session_reset questions
              (after_provider (languageSelect_value st) [] st))).
Proof.
  intros Haccepts Hsome.
  assert (Forall WellFormedQuestion questions) as Hall.
  { by destruct Haccepts as (_ & _ & _ & _ & _ & _ & _ & _ & _ & Hall). }
  split; [done|].
  pose proof (generateQuestionsWithAI_accepted
                (languageSelect_value st) net questions st Haccepts) as Hrun.
  unfold startQuiz, bind at 1, read. unfold bind at 1. rewrite Hrun.
  unfold bind at 1, assign.
  destruct questions as [|question questions']; [done|].
  unfold bind, assign.
  change (length (question :: questions') =? 0) with false. cbv beta iota.
  apply Forall_cons in Hall as [Hwf _].
  destruct (well_formed_options question Hwf)
    as (question_text & answer & options & Htext & Hoptions & _).
  match goal with
  | |- context [loadQuestion ?st'] =>
      destruct (loadQuestion_renders st' question _ _ eq_refl Htext Hoptions)
        as (shuffled & draws & -> & _)
  end.
  by exists question, (DOMString (VStr question_text)), shuffled, draws.
Qed.

(** [startQuiz] when the provider returns no question. *)
Lemma startQuiz_nothing_returned net st st1 :
  generateQuestionsWithAI (languageSelect_value st) net st = (Returned [], st1) →
  startQuiz net st
    = (Returned tt,
       set_scoreCard_hidden true
         (set_quizContainer_hidden true
            (set_languageSelectionSection_hidden false
               (set_currentQuestions [] st1)))).
Proof.
  intros Hprovider. unfold startQuiz, bind, read, assign. by rewrite Hprovider.
Qed.

(** What a freshly started session looks like. *)
Lemma freshly_started_session questions st :
  freshly_started questions st →
  Forall WellFormedQuestion questions ∧
  currentQuestions st = questions ∧
  currentQuestionIndex st = 0 ∧
  score st = 0 ∧
  answeredThisQuestion st = false ∧
  quizContainer_hidden st = false ∧
  scoreCard_hidden st = true.
Proof.
  intros (net & before & Hrun & Hquestions & Hsome).
  destruct (generateQuestionsWithAI_cases (languageSelect_value before) net before)
    as (returned & notices & Hprovider & [[-> Haccepts] | (_ & -> & _)]).
  - destruct returned as [|question returned'].
    + rewrite (startQuiz_nothing_returned _ _ _ Hprovider) in Hrun.
      injection Hrun as <-. cbn in Hquestions. congruence.
    + destruct (startQuiz_accepted net (question :: returned') before Haccepts)
        as (Hall & q & question_text & shuffled & draws & Hstart); [done|].
      rewrite Hstart in Hrun. injection Hrun as <-.
      cbn in Hquestions. subst questions. done.
  - rewrite (startQuiz_nothing_returned _ _ _ Hprovider) in Hrun.
    injection Hrun as <-. cbn in Hquestions. congruence.
Qed.

(** C8. Starting a quiz on an answer the provider accepts, with at least
    one question, sends a request for the language chosen in the
    drop-down and puts up a fresh session on the questions just
    received, whatever the page held before: index 0, score 0, nothing
    answered.  Retaking is starting: the same request for the same
    language, and the questions of the new answer, not the earlier
    ones. *)
Theorem C8_start_and_retake_create_fresh_session net questions st :
  provider_accepts net questions →
  questions ≠ [] →
  retakeQuiz net st = startQuiz net st ∧
  ∃ st',
    startQuiz net st = (Returned tt, st') ∧
    currentQuestions st' = questions ∧
    currentQuestionIndex st' = 0 ∧
    score st' = 0 ∧
    answeredThisQuestion st' = false ∧
    requests st' = (requests st ++ [prompt_for (languageSelect_value st)])%list ∧
    languageSelect_value st' = languageSelect_value st ∧
    alerts st' = alerts st ∧
    quizContainer_hidden st' = false ∧
    scoreCard_hidden st' = true ∧
    languageSelectionSection_hidden st' = true.
Proof.
  intros Haccepts Hsome. split; [done|].
  destruct (startQuiz_accepted net questions st Haccepts Hsome)
    as (_ & question & question_text & shuffled & draws & ->).
  eexists. split; [done|]. simpl. by rewrite app_nil_r.
Qed.

(** ** A start that fails *)

(** When the network's answer falls short the page is back on the topic
    selection after exactly one notice, with no question held and the
    index, the score and the question on display left as they were. *)
Lemma startQuiz_failure net st :
  ProviderFailure net →
  ∃ notice st',
    startQuiz net st = (Returned tt, st') ∧
    Idle st' ∧
    alerts st' = (alerts st ++ [notice])%list ∧
    currentQuestions st' = [] ∧
    currentQuestionIndex st' = currentQuestionIndex st ∧
    score st' = score st ∧
    answeredThisQuestion st' = answeredThisQuestion st ∧
    questionText st' = questionText st ∧
    optionsContainer st' = optionsContainer st.
Proof.
  intros Hfail.
  destruct (generateQuestionsWithAI_failure (languageSelect_value st) net st Hfail)
    as (notice & Hprovider).
  unfold startQuiz, bind, read, assign. rewrite Hprovider. simpl.
  eexists notice, _. split; [done|]. by repeat split.
Qed.

(** Changing the language leads to the topic selection from anywhere. *)
Lemma changeLanguage_Idle st :
  ∃ st', changeLanguage st = (Returned tt, st') ∧ Idle st'.
Proof. eexists. split; [reflexivity|]. by repeat split. Qed.

(** C6, where the code falls short of it.  When the text part parses to
    an empty array the validation has nothing to reject: the provider
    returns the empty list without a notice, and [startQuiz] goes back to
    the topic selection with no question held and nothing shown to the
    user. *)
Theorem C6_empty_array_returns_to_idle_without_notice net st :
  provider_accepts net [] →
  ∃ st',
    startQuiz net st = (Returned tt, st') ∧
    Idle st' ∧
    currentQuestions st' = [] ∧
    currentQuestionIndex st' = currentQuestionIndex st ∧
    score st' = score st ∧
    alerts st' = alerts st.
Proof.
  intros Haccepts.
  pose proof (generateQuestionsWithAI_accepted
                (languageSelect_value st) net [] st Haccepts) as Hprovider.
  unfold startQuiz, bind, read, assign. rewrite Hprovider. simpl.
  eexists. split; [done|]. unfold Idle. simpl. rewrite app_nil_r. by repeat split.
Qed.

(** ** Selecting an option *)

Lemma selectOption_answered selectedButton selectedOption correctAnswer st :
  answeredThisQuestion st = true →
  selectOption selectedButton selectedOption correctAnswer st = (Returned tt, st).
Proof.
  intros Hanswered. unfold selectOption, bind, read. by rewrite Hanswered.
Qed.

Lemma selectOption_unanswered selectedButton selectedOption correctAnswer st :
  answeredThisQuestion st = false →
  ∃ st',
    selectOption selectedButton selectedOption correctAnswer st = (Returned tt, st') ∧
    answeredThisQuestion st' = true ∧
    score st' = score st + (if strict_equal selectedOption correctAnswer then 1 else 0) ∧
    currentQuestions st' = currentQuestions st ∧
    currentQuestionIndex st' = currentQuestionIndex st ∧
    scoreCard_hidden st' = scoreCard_hidden st ∧
    nextButton_hidden st' = false ∧
    quizContainer_hidden st' = quizContainer_hidden st.
Proof.
  intros Hanswered. unfold selectOption, bind, read, assign. rewrite Hanswered.
  destruct (strict_equal selectedOption correctAnswer); simpl;
    (eexists; split; [done|]; simpl; repeat split; lia).
Qed.

(** C3. Once the question on display has been answered, a further call
    of [selectOption], with any button, any option and any answer,
    changes nothing: it returns at its first line, and the page (the
    score, the marks on the buttons that record the outcome, and all
    the rest) is the page as it was. *)
Theorem C3_selectOption_is_guarded selectedButton selectedOption correctAnswer st :
  answeredThisQuestion st = true →
  ∃ st',
    selectOption selectedButton selectedOption correctAnswer st = (Returned tt, st') ∧
    st' = st ∧
    score st' = score st ∧
    optionsContainer st' = optionsContainer st.
Proof.
  intros Hanswered. exists st. by rewrite selectOption_answered.
Qed.

(** Two calls in a row, whatever their arguments: the second changes
    nothing. *)
Lemma selectOption_twice b1 o1 a1 b2 o2 a2 st :
  let once := (selectOption b1 o1 a1 st).2 in
  selectOption b2 o2 a2 once = (Returned tt, once).
Proof.
  intros once. apply selectOption_answered. subst once.
  destruct (answeredThisQuestion st) eqn:Hanswered.
  - by rewrite selectOption_answered.
  - destruct (selectOption_unanswered b1 o1 a1 st Hanswered) as (st' & -> & ? & _).
    done.
Qed.

(** ** Advancing *)

Lemma nth_well_formed questions i :
  Forall WellFormedQuestion questions →
  i < length questions →
  WellFormedQuestion (nth i questions VUndefined).
Proof.
  intros Hall Hi. rewrite Forall_forall in Hall. apply Hall.
  apply list_elem_of_In, nth_In, Hi.
Qed.

(** Next, when a question is left: the index moves on, the next question
    is put up and can be answered. *)
Lemma loadNextQuestion_more st :
  Forall WellFormedQuestion (currentQuestions st) →
  S (currentQuestionIndex st) < length (currentQuestions st) →
  ∃ st',
    loadNextQuestion st = (Returned tt, st') ∧
    currentQuestionIndex st' = S (currentQuestionIndex st) ∧
    answeredThisQuestion st' = false ∧
    score st' = score st ∧
    currentQuestions st' = currentQuestions st ∧
    scoreCard_hidden st' = scoreCard_hidden st ∧
    quizContainer_hidden st' = quizContainer_hidden st.
Proof.
  intros Hall Hmore.
  pose proof (nth_well_formed _ _ Hall Hmore) as Hwf.
  destruct (well_formed_options _ Hwf)
    as (question_text & answer & options & Htext & Hoptions & _).
  unfold loadNextQuestion, bind, assign, read. simpl.
  apply Nat.ltb_lt in Hmore as Hltb. rewrite Hltb.
  match goal with
  | |- context [loadQuestion ?st1] =>
      destruct (loadQuestion_renders st1 _ _ _ eq_refl Htext Hoptions)
        as (shuffled & draws & -> & _)
  end.
  eexists. split; [done|]. done.
Qed.

(** Next, on the last question: the index moves past the end and the
    score card is shown; [answeredThisQuestion] is left as it was. *)
Lemma loadNextQuestion_last st :
  ¬ S (currentQuestionIndex st) < length (currentQuestions st) →
  ∃ st',
    loadNextQuestion st = (Returned tt, st') ∧
    currentQuestionIndex st' = S (currentQuestionIndex st) ∧
    answeredThisQuestion st' = answeredThisQuestion st ∧
    score st' = score st ∧
    currentQuestions st' = currentQuestions st ∧
    scoreCard_hidden st' = false ∧
    quizContainer_hidden st' = true ∧
    finalScoreSpan st' = pretty (score st) ∧
    totalQuestionsSpan st' = pretty (length (currentQuestions st)).
Proof.
  intros Hlast. unfold loadNextQuestion, bind, assign, read. simpl.
  apply Nat.ltb_nlt in Hlast as Hltb. rewrite Hltb.
  eexists. split; [done|]. done.
Qed.

Lemma forEach_app {A} (f : A → Js unit) l1 l2 st :
  forEach f (l1 ++ l2) st
    = match forEach f l1 st with
      | (Returned _, st') => forEach f l2 st'
      | (Thrown e, st') => (Thrown e, st')
      end.
Proof.
  revert st. induction l1 as [|x l1 IH]; intros st; simpl; [done|].
  unfold bind. destruct (f x st) as [[[]|e] st1]; [|done]. apply IH.
Qed.

(** The state after [k] presses of Next in a row on a fresh session. *)
Lemma advance_from_fresh questions st k :
  freshly_started questions st →
  k ≤ length questions →
  ∃ st_k,
    perform_all (replicate k Next) st = (Returned tt, st_k) ∧
    currentQuestions st_k = questions ∧
    currentQuestionIndex st_k = k ∧
    answeredThisQuestion st_k = false ∧
    score st_k = 0 ∧
    scoreCard_hidden st_k = negb (done st_k) ∧
    quizContainer_hidden st_k = done st_k.
Proof.
  intros Hfresh.
  destruct (freshly_started_session questions st Hfresh)
    as (Hall & Hquestions & Hindex & Hscore & Hanswered & Hquiz & Hcard).
  destruct Hfresh as (_ & _ & _ & _ & Hsome).
  assert (0 < length questions) as Hpositive
    by (destruct questions; [done|simpl; lia]).
  induction k as [|k IH]; intros Hk.
  - exists st. unfold done. rewrite Hindex, Hquestions.
    apply Nat.ltb_lt in Hpositive as ->. done.
  - destruct IH as (st_k & Hrun & Hqs & Hi & Hans & Hsc & Hcard_k & Hquiz_k); [lia|].
    rewrite replicate_S_end. unfold perform_all in *. rewrite forEach_app, Hrun.
    simpl. unfold bind, ret.
    destruct (decide (S k < length questions)) as [Hmore|Hlast].
    + destruct (loadNextQuestion_more st_k) as (st' & -> & Hi' & Hans' & Hsc' & Hqs' & Hcard' & Hquiz');
        [by rewrite Hqs|by rewrite Hqs, Hi|].
      exists st'. split; [done|].
      assert (done st_k = false) as Hdone_k.
      { unfold done. rewrite Hi, Hqs.
        assert (k < length questions) as ->%Nat.ltb_lt by lia. done. }
      assert (done st' = false) as Hdone'.
      { unfold done. rewrite Hi', Hqs', Hi, Hqs.
        apply Nat.ltb_lt in Hmore as ->. done. }
      rewrite Hi', Hqs', Hcard', Hquiz', Hcard_k, Hquiz_k, Hdone_k, Hdone'.
      repeat split; congruence.
    + destruct (loadNextQuestion_last st_k) as (st' & -> & Hi' & Hans' & Hsc' & Hqs' & Hcard' & Hquiz' & _);
        [by rewrite Hqs, Hi|].
      exists st'. split; [done|].
      assert (done st' = true) as Hdone'.
      { unfold done. rewrite Hi', Hqs', Hi, Hqs.
        apply Nat.ltb_nlt in Hlast as ->. done. }
      rewrite Hi', Hqs', Hcard', Hquiz', Hdone'.
      repeat split; congruence.
Qed.

Lemma perform_all_cons a actions st :
  perform_all (a :: actions) st
    = match perform a st with
      | (Returned _, st') => perform_all actions st'
      | (Thrown e, st') => (Thrown e, st')
      end.
Proof. reflexivity. Qed.

Lemma complete_run_cons pick picks :
  complete_run (pick :: picks) = Select pick.1 pick.2 :: Next :: complete_run picks.
Proof. reflexivity. Qed.

(** Selecting an option while the quiz is on leaves the quiz where it
    is, answered or not. *)
Lemma perform_select_in_progress button option st :
  WellFormedQuestion (nth (currentQuestionIndex st) (currentQuestions st) VUndefined) →
  ∃ st',
    perform (Select button option) st = (Returned tt, st') ∧
    currentQuestions st' = currentQuestions st ∧
    currentQuestionIndex st' = currentQuestionIndex st ∧
    scoreCard_hidden st' = scoreCard_hidden st ∧
    quizContainer_hidden st' = quizContainer_hidden st.
Proof.
  intros Hwf.
  destruct (well_formed_options _ Hwf)
    as (question_text & answer & options & _ & _ & Hanswer & _).
  unfold perform, bind, read, eval. rewrite Hanswer.
  destruct (answeredThisQuestion st) eqn:Hanswered.
  - rewrite selectOption_answered by done. by exists st.
  - destruct (selectOption_unanswered button option (VStr answer) st Hanswered)
      as (st' & -> & _ & _ & ? & ? & ? & _ & ?).
    by exists st'.
Qed.

(** Any actions that leave a question to come keep the quiz on, with the
    index at the number of presses of Next. *)
Lemma quiz_in_progress actions :
  ∀ st,
    Forall WellFormedQuestion (currentQuestions st) →
    scoreCard_hidden st = true →
    quizContainer_hidden st = false →
    currentQuestionIndex st + Next_count actions < length (currentQuestions st) →
    ∃ st',
      perform_all actions st = (Returned tt, st') ∧
      currentQuestions st' = currentQuestions st ∧
      currentQuestionIndex st' = currentQuestionIndex st + Next_count actions ∧
      scoreCard_hidden st' = true ∧
      quizContainer_hidden st' = false.
Proof.
  induction actions as [|[button option|] actions IH];
    intros st Hall Hcard Hquiz Hleft; simpl in Hleft.
  - exists st. simpl. repeat split; try done; lia.
  - destruct (perform_select_in_progress button option st)
      as (st1 & Hselect & Hq & Hi & Hc & Hz).
    { apply nth_well_formed; [done|lia]. }
    destruct (IH st1) as (st' & Hrun & Hq' & Hi' & Hc' & Hz'); try congruence.
    exists st'. rewrite perform_all_cons, Hselect. simpl.
    repeat split; congruence.
  - destruct (loadNextQuestion_more st Hall) as (st1 & Hnext & Hi & _ & _ & Hq & Hc & Hz);
      [lia|].
    destruct (IH st1) as (st' & Hrun & Hq' & Hi' & Hc' & Hz'); try congruence.
    { rewrite Hi, Hq. lia. }
    exists st'. rewrite perform_all_cons.
    change (perform Next st) with (loadNextQuestion st). rewrite Hnext. simpl.
    repeat split; try congruence. lia.
Qed.

(** C4, as the code has it.  On a freshly started session over [n]
    questions, whatever is selected on the way, the k-th press of Next
    (k ≤ n) moves the index to [k]; the quiz is not over after any of
    the first [n-1] presses and is over after the [n]-th, when the score
    card replaces the quiz.  Each of the first [n-1] presses puts
    [answeredThisQuestion] back to false; the [n]-th leaves it as it
    was. *)
Theorem C4_advance_is_done_exactly_at_the_end questions st actions :
  freshly_started questions st →
  Next_count actions < length questions →
  ∃ st_k st',
    perform_all actions st = (Returned tt, st_k) ∧
    loadNextQuestion st_k = (Returned tt, st') ∧
    currentQuestionIndex st_k = Next_count actions ∧
    done st_k = false ∧
    currentQuestionIndex st' = S (Next_count actions) ∧
    done st' = bool_decide (S (Next_count actions) = length questions) ∧
    answeredThisQuestion st'
      = (if done st' then answeredThisQuestion st_k else false) ∧
    scoreCard_hidden st' = negb (done st') ∧
    quizContainer_hidden st' = done st'.
Proof.
  intros Hfresh Hleft.
  destruct (freshly_started_session questions st Hfresh)
    as (Hall & Hquestions & Hindex & _ & _ & Hquiz & Hcard).
  destruct (quiz_in_progress actions st)
    as (st_k & Hrun & Hq & Hi & Hc & Hz); try done.
  { by rewrite Hquestions. }
  { rewrite Hquestions, Hindex. simpl. lia. }
  rewrite Hindex in Hi. simpl in Hi. rewrite Hquestions in Hq.
  assert (done st_k = false) as Hdone_k.
  { unfold done. rewrite Hi, Hq. apply Nat.ltb_lt in Hleft as ->. done. }
  destruct (decide (S (Next_count actions) < length questions)) as [Hmore|Hlast].
  - destruct (loadNextQuestion_more st_k)
      as (st' & Hnext & Hi' & Hans' & _ & Hq' & Hc' & Hz');
      [by rewrite Hq|by rewrite Hq, Hi|].
    assert (done st' = false) as Hdone'.
    { unfold done. rewrite Hi', Hq', Hi, Hq. apply Nat.ltb_lt in Hmore as ->. done. }
    exists st_k, st'. rewrite Hdone', Hi', Hi, Hc', Hz', Hc, Hz.
    rewrite bool_decide_eq_false_2 by lia. done.
  - destruct (loadNextQuestion_last st_k)
      as (st' & Hnext & Hi' & Hans' & _ & Hq' & Hc' & Hz' & _);
      [by rewrite Hq, Hi|].
    assert (done st' = true) as Hdone'.
    { unfold done. rewrite Hi', Hq', Hi, Hq. apply Nat.ltb_nlt in Hlast as ->. done. }
    exists st_k, st'. rewrite Hdone', Hi', Hi, Hc', Hz'.
    rewrite bool_decide_eq_true_2 by lia. done.
Qed.

(** ** A complete run *)

(** Selecting an option on a question not yet answered. *)
Lemma perform_select button option st question (answer : string) :
  nth (currentQuestionIndex st) (currentQuestions st) VUndefined = question →
  Get question "answer" = Returned (VStr answer) →
  answeredThisQuestion st = false →
  ∃ st',
    perform (Select button option) st = (Returned tt, st') ∧
    answeredThisQuestion st' = true ∧
    score st' = score st + (if strict_equal option (VStr answer) then 1 else 0) ∧
    currentQuestions st' = currentQuestions st ∧
    currentQuestionIndex st' = currentQuestionIndex st.
Proof.
  intros Hcurrent Hanswer Hunanswered.
  unfold perform, bind, read, eval. rewrite Hcurrent, Hanswer.
  destruct (selectOption_unanswered button option (VStr answer) st Hunanswered)
    as (st' & -> & ? & ? & ? & ? & _).
  by exists st'.
Qed.

Lemma correct_selections_bound questions picks :
  correct_selections questions picks ≤ length picks.
Proof.
  revert picks. induction questions as [|q questions IH]; intros [|pick picks];
    simpl; try lia.
  specialize (IH picks).
  destruct (Get q "answer") as [answer|]; [destruct (strict_equal _ _)|]; lia.
Qed.

(** A run of one selection and one Next per remaining question, from a
    page that has [answered] behind it: where it ends, and what the
    score is at each point on the way. *)
Lemma run_rounds picks :
  ∀ answered remaining st,
    currentQuestions st = (answered ++ remaining)%list →
    currentQuestionIndex st = length answered →
    (picks ≠ [] → answeredThisQuestion st = false) →
    Forall WellFormedQuestion (answered ++ remaining)%list →
    length picks = length remaining →
    (∃ st',
       perform_all (complete_run picks) st = (Returned tt, st') ∧
       score st' = score st + correct_selections remaining picks ∧
       (picks ≠ [] →
        done st' = true ∧ scoreCard_hidden st' = false ∧
        finalScoreSpan st' = pretty (score st'))) ∧
    (∀ actions,
       actions `prefix_of` complete_run picks →
       ∃ st',
         perform_all actions st = (Returned tt, st') ∧
         score st ≤ score st' ≤ score st + length picks).
Proof.
  induction picks as [|pick picks IH];
    intros answered remaining st Hquestions Hindex Hunanswered Hall Hlength.
  { split.
    - exists st. split; [done|]. destruct remaining; [|done]. simpl.
      split; [lia|done].
    - intros actions ->%prefix_nil_inv. exists st. split; [done|]. simpl. lia. }
  destruct remaining as [|question remaining]; [done|].
  pose proof Hall as Hall'.
  apply Forall_app in Hall' as [_ [Hwf _]%Forall_cons].
  destruct (well_formed_options question Hwf)
    as (question_text & answer & options & _ & _ & Hanswer & _).
  assert (nth (currentQuestionIndex st) (currentQuestions st) VUndefined = question)
    as Hcurrent.
  { rewrite Hquestions, Hindex, app_nth2, Nat.sub_diag; [done|lia]. }
  destruct (perform_select pick.1 pick.2 st question answer Hcurrent Hanswer)
    as (st1 & Hselect & Hanswered1 & Hscore1 & Hquestions1 & Hindex1); [by auto|].
  set (gain := if strict_equal pick.2 (VStr answer) then 1 else 0) in *.
  assert (gain ≤ 1) as Hgain by (subst gain; destruct (strict_equal _ _); lia).
  (* the state after the Next that follows *)
  assert (∃ st2,
            loadNextQuestion st1 = (Returned tt, st2) ∧
            score st2 = score st1 ∧
            currentQuestions st2 = ((answered ++ [question]) ++ remaining)%list ∧
            currentQuestionIndex st2 = length (answered ++ [question])%list ∧
            (picks ≠ [] → answeredThisQuestion st2 = false) ∧
            (picks = [] →
             done st2 = true ∧ scoreCard_hidden st2 = false ∧
             finalScoreSpan st2 = pretty (score st2)))
    as (st2 & Hnext & Hscore2 & Hquestions2 & Hindex2 & Hunanswered2 & Hend).
  { destruct picks as [|pick' picks].
    - destruct remaining; [|done].
      destruct (loadNextQuestion_last st1)
        as (st2 & -> & Hi & _ & Hs & Hq & Hcard & _ & Hfinal & _).
      { rewrite Hquestions1, Hindex1, Hquestions, Hindex, length_app. simpl. lia. }
      exists st2. rewrite Hs, Hq, Hi, Hquestions1, Hindex1, Hquestions, Hindex.
      rewrite <- app_assoc. repeat split; try done.
      + rewrite length_app. simpl. lia.
      + unfold done. rewrite Hi, Hq, Hquestions1, Hindex1, Hquestions, Hindex.
        rewrite length_app. simpl.
        assert (¬ S (length answered) < length answered + 1) as ->%Nat.ltb_nlt by lia.
        done.
    - destruct (loadNextQuestion_more st1)
        as (st2 & -> & Hi & Ha & Hs & Hq & _).
      { by rewrite Hquestions1, Hquestions. }
      { rewrite Hquestions1, Hindex1, Hquestions, Hindex, length_app. simpl in *. lia. }
      exists st2. rewrite Hs, Hq, Hi, Hquestions1, Hindex1, Hquestions, Hindex.
      rewrite <- app_assoc, length_app. simpl.
      repeat split; try done. lia. }
  destruct (IH (answered ++ [question])%list remaining st2)
    as ((st' & Hrest & Hscore' & Hdone') & Hpoints); auto.
  { by rewrite <- app_assoc. }
  split.
  - exists st'. split.
    + rewrite complete_run_cons, perform_all_cons, Hselect, perform_all_cons.
      change (perform Next st1) with (loadNextQuestion st1). rewrite Hnext.
      exact Hrest.
    + split.
      * simpl. rewrite Hanswer. fold gain. lia.
      * intros _. destruct picks as [|pick' picks]; [|by apply Hdone'].
        injection Hrest as <-. by apply Hend.
  - intros actions Hprefix. rewrite complete_run_cons in Hprefix.
    destruct actions as [|a1 [|a2 actions]].
    + exists st. split; [done|]. simpl. lia.
    + apply prefix_cons_inv_1 in Hprefix as ->.
      exists st1. split.
      * by rewrite perform_all_cons, Hselect.
      * simpl. lia.
    + pose proof (prefix_cons_inv_1 _ _ _ _ Hprefix) as ->.
      apply prefix_cons_inv_2 in Hprefix.
      pose proof (prefix_cons_inv_1 _ _ _ _ Hprefix) as ->.
      apply prefix_cons_inv_2 in Hprefix.
      destruct (Hpoints actions Hprefix) as (st'' & Hrun & Hbounds).
      exists st''. split.
      * rewrite perform_all_cons, Hselect, perform_all_cons.
        change (perform Next st1) with (loadNextQuestion st1). by rewrite Hnext.
      * simpl. lia.
Qed.

(** A click on an option button of the question on display is the
    selection of the option the button carries. *)
Lemma option_click_selects i button st :
  optionsContainer st !! i = Some button →
  listener_question button
    = nth (currentQuestionIndex st) (currentQuestions st) VUndefined →
  option_click i st = perform (Select i (listener_option button)) st.
Proof.
  intros Hbutton Hquestion.
  unfold option_click, perform, bind, read. by rewrite Hbutton, Hquestion.
Qed.

(** C5. In a complete run over the [K] questions of a freshly started
    session, one selection per question and a Next after each, the final
    score is the number of selections that are the correct answer of
    their question, which is also the score shown on the card; and at
    every point of the run the score lies between 0 and [K]. *)
Theorem C5_score_counts_the_correct_selections questions picks st :
  freshly_started questions st →
  length picks = length questions →
  (∃ st',
     perform_all (complete_run picks) st = (Returned tt, st') ∧
     score st' = correct_selections questions picks ∧
     finalScoreSpan st' = pretty (correct_selections questions picks) ∧
     done st' = true) ∧
  (∀ actions,
     actions `prefix_of` complete_run picks →
     ∃ st',
       perform_all actions st = (Returned tt, st') ∧
       0 ≤ score st' ≤ length questions).
Proof.
  intros Hfresh Hlength.
  destruct (freshly_started_session questions st Hfresh)
    as (Hall & Hquestions & Hindex & Hscore & Hanswered & _).
  destruct Hfresh as (_ & _ & _ & _ & Hsome).
  assert (picks ≠ []) as Hpicks by (destruct picks, questions; done).
  destruct (run_rounds picks [] questions st)
    as ((st' & Hrun & Hfinal & Hend) & Hpoints); auto.
  destruct (Hend Hpicks) as (Hdone & _ & Hcard).
  rewrite Hscore in Hfinal. simpl in Hfinal.
  split.
  - exists st'. by rewrite <- Hfinal.
  - intros actions Hprefix.
    destruct (Hpoints actions Hprefix) as (st'' & Hrun' & Hbounds).
    exists st''. split; [done|]. lia.
Qed.

End Quiz.

(** * The properties on the example page *)

Module Run.
Import Example.

Lemma q1_well_formed : WellFormedQuestion q1.
Proof.
  exists "Which keyword defines a function in Python?",
    "def", "func", "fn", "lambda", "def".
  repeat split. apply list_elem_of_here.
Defined.

Lemma q2_well_formed : WellFormedQuestion q2.
Proof.
  exists "What does len([1, 2]) return?", "1", "2", "3", "0", "2".
  repeat split. apply list_elem_of_further, list_elem_of_here.
Defined.

Lemma q_short_ill_formed : ¬ WellFormedQuestion q_short.
Proof.
  intros Hwf. apply question_check_well_formed in Hwf. discriminate Hwf.
Qed.

Lemma null_ill_formed : ¬ WellFormedQuestion VNull.
Proof.
  intros Hwf. apply question_check_well_formed in Hwf. discriminate Hwf.
Qed.

Lemma two_questions_accepted : @provider_accepts engine two_questions [q1; q2].
Proof.
  exists (success parsed_two), (envelope (json_text parsed_two)),
    (VStr (json_text parsed_two)).
  split; [reflexivity|].
  do 5 (split; [vm_compute; reflexivity|]).
  repeat constructor; [apply q1_well_formed | apply q2_well_formed].
Defined.

Lemma no_question_accepted : @provider_accepts engine no_question [].
Proof.
  exists (success parsed_empty), (envelope (json_text parsed_empty)),
    (VStr (json_text parsed_empty)).
  split; [reflexivity|].
  do 5 (split; [vm_compute; reflexivity|]).
  constructor.
Defined.

Lemma started_fresh : @freshly_started engine [q1; q2] started.
Proof.
  exists two_questions, page.
  split; [vm_compute; reflexivity|]. split; [vm_compute; reflexivity|]. discriminate.
Defined.

End Run.


Lemma C1_witness :
  ∃ notice,
    @generateQuestionsWithAI Example.engine "Python" Example.one_short_question Example.page
      = (Returned [], after_provider "Python" [notice] Example.page) ∧
    (notice = "Failed to parse AI-generated questions. Please try again." ∨
     ∃ e, Array_every question_check [Example.q1; Example.q_short] = Thrown e ∧
          notice = "Failed to generate questions: " ++ @message Example.engine e
                   ++ ". Please check your network or try again.").
Proof.
  apply (@C1_ill_formed_element_empties_result Example.engine "Python"
           (Example.success Example.parsed_mixed)
           (Example.envelope (Example.json_text Example.parsed_mixed))
           (VStr (Example.json_text Example.parsed_mixed))
           [Example.q1; Example.q_short] Example.page);
    try (vm_compute; reflexivity).
  apply Exists_cons_tl, Exists_cons_hd, Run.q_short_ill_formed.
Defined.

(** C1 as stated does not hold: on an array whose second element is
    [null] the call does not fail with an error of the validation, or with
    any error: the check throws on [null], the [catch] block shows its own
    notice, and the call returns the empty list. *)
Lemma C1_counterexample :
  let run :=
    @generateQuestionsWithAI Example.engine "Python" Example.one_null_question
      Example.page in
  Exists (λ q, ¬ WellFormedQuestion q) [Example.q1; VNull] ∧
  run.1 = Returned [] ∧
  (¬ ∃ e, run.1 = Thrown e) ∧
  alerts run.2
    = ["Failed to generate questions: Cannot read properties of null (reading 'question'). Please check your network or try again."].
Proof.
  split; [apply Exists_cons_tl, Exists_cons_hd, Run.null_ill_formed|].
  split; [vm_compute; reflexivity|].
  split; [|vm_compute; reflexivity].
  intros [e He]. vm_compute in He. discriminate He.
Qed.

Lemma C2_witness :
  ∃ returned,
    @generateQuestionsWithAI Example.engine "Python" Example.two_questions Example.page
      = (Returned returned, after_provider "Python" [] Example.page) ∧
    returned = [Example.q1; Example.q2] ∧
    length returned = 2 ∧
    Forall (λ q, ∃ options answer,
                   Get q "options" = Returned (VArr options) ∧
                   Get q "answer" = Returned answer ∧
                   answer ∈ options) returned.
Proof.
  apply (@C2_valid_response_returns_questions Example.engine "Python"
           Example.two_questions [Example.q1; Example.q2] Example.page
           Run.two_questions_accepted).
Defined.

Lemma C3_witness :
  ∃ st',
    selectOption 0 (VStr "def") (VStr "def") Example.answered = (Returned tt, st') ∧
    st' = Example.answered ∧
    score st' = score Example.answered ∧
    optionsContainer st' = optionsContainer Example.answered.
Proof.
  apply (C3_selectOption_is_guarded 0 (VStr "def") (VStr "def") Example.answered).
  vm_compute. reflexivity.
Defined.

Lemma C4_witness :
  ∃ st_k st',
    @perform_all Example.engine [Select 0 (VStr "def"); Next; Select 2 (VStr "3")]
      Example.started = (Returned tt, st_k) ∧
    @loadNextQuestion Example.engine st_k = (Returned tt, st') ∧
    currentQuestionIndex st_k = 1 ∧
    done st_k = false ∧
    currentQuestionIndex st' = 2 ∧
    done st' = true ∧
    answeredThisQuestion st'
      = (if done st' then answeredThisQuestion st_k else false) ∧
    scoreCard_hidden st' = negb (done st') ∧
    quizContainer_hidden st' = done st'.
Proof.
  apply (@C4_advance_is_done_exactly_at_the_end Example.engine
           [Example.q1; Example.q2] Example.started
           [Select 0 (VStr "def"); Next; Select 2 (VStr "3")] Run.started_fresh).
  simpl. lia.
Defined.

(** C4 as stated does not hold: in a quiz on two questions played to the
    end, the second press of Next ends the quiz and leaves
    [answeredThisQuestion] true. *)
Lemma C4_counterexample :
  let final := (@perform_all Example.engine Example.played Example.started).2 in
  @freshly_started Example.engine [Example.q1; Example.q2] Example.started ∧
  Next_count Example.played = 2 ∧
  currentQuestionIndex final = 2 ∧
  done final = true ∧
  answeredThisQuestion final = true.
Proof.
  split; [apply Run.started_fresh|].
  repeat (split; [vm_compute; reflexivity|]). vm_compute. reflexivity.
Qed.

Lemma C5_witness :
  let picks := [(0, VStr "def"); (2, VStr "3")] in
  (∃ st',
     @perform_all Example.engine (complete_run picks) Example.started = (Returned tt, st') ∧
     score st' = 1 ∧
     finalScoreSpan st' = "1" ∧
     done st' = true) ∧
  (∀ actions,
     actions `prefix_of` complete_run picks →
     ∃ st',
       @perform_all Example.engine actions Example.started = (Returned tt, st') ∧
       0 ≤ score st' ≤ 2).
Proof.
  exact (@C5_score_counts_the_correct_selections Example.engine
           [Example.q1; Example.q2] [(0, VStr "def"); (2, VStr "3")] Example.started
           Run.started_fresh eq_refl).
Defined.

Lemma C6_witness :
  ∃ st',
    @startQuiz Example.engine Example.no_question Example.page = (Returned tt, st') ∧
    Idle st' ∧
    currentQuestions st' = [] ∧
    currentQuestionIndex st' = 0 ∧
    score st' = 0 ∧
    alerts st' = [].
Proof.
  apply (@C6_empty_array_returns_to_idle_without_notice Example.engine
           Example.no_question Example.page Run.no_question_accepted).
Defined.

Lemma C7_witness :
  (@generateQuestionsWithAI_try Example.engine "Python" Example.unavailable Example.page).1
    = Thrown (Error_new "HTTP error! status: 503, body: overloaded") ∧
  @generateQuestionsWithAI Example.engine "Python" Example.unavailable Example.page
    = (Returned [],
       after_provider "Python"
         ["Failed to generate questions: HTTP error! status: 503, body: overloaded. Please check your network or try again."]
         Example.page).
Proof.
  apply (@C7_non_success_status_is_reported Example.engine "Python"
           Example.server_error "overloaded" Example.page); reflexivity.
Defined.

(** C7 as stated does not hold: on a 503 the call does not fail with an
    error that carries the status and the body, it returns the empty
    list. *)
Lemma C7_counterexample :
  let completion :=
    (@generateQuestionsWithAI Example.engine "Python" Example.unavailable Example.page).1 in
  ok Example.server_error = false ∧
  completion = Returned [] ∧
  ¬ ∃ e, completion = Thrown e.
Proof.
  split; [reflexivity|]. split; [vm_compute; reflexivity|].
  intros [e He]. vm_compute in He. discriminate He.
Qed.

Lemma C8_witness :
  @retakeQuiz Example.engine Example.two_questions Example.answered
    = @startQuiz Example.engine Example.two_questions Example.answered ∧
  ∃ st',
    @startQuiz Example.engine Example.two_questions Example.answered = (Returned tt, st') ∧
    currentQuestions st' = [Example.q1; Example.q2] ∧
    currentQuestionIndex st' = 0 ∧
    score st' = 0 ∧
    answeredThisQuestion st' = false ∧
    requests st' = (requests Example.answered ++ [prompt_for "Python"])%list ∧
    languageSelect_value st' = "Python" ∧
    alerts st' = alerts Example.answered ∧
    quizContainer_hidden st' = false ∧
    scoreCard_hidden st' = true ∧
    languageSelectionSection_hidden st' = true.
Proof.
  apply (@C8_start_and_retake_create_fresh_session Example.engine
           Example.two_questions [Example.q1; Example.q2] Example.answered
           Run.two_questions_accepted).
  discriminate.
Defined.

Lemma C9_witness :
  ∃ st' (options : list string),
    @loadQuestion Example.engine Example.started = (Returned tt, st') ∧
    Get Example.q1 "options" = Returned (VArr (VStr <$> options)) ∧
    textContent <$> optionsContainer st' ≡ₚ options ∧
    length (optionsContainer st') = 4 ∧
    Forall (λ button, listener_option button = VStr (textContent button) ∧
                      listener_question button = Example.q1)
           (optionsContainer st') ∧
    random_calls Example.started + 3 ≤ random_calls st'.
Proof.
  apply (@C9_presented_options_are_a_permutation Example.engine
           Example.started Example.q1 eq_refl Run.q1_well_formed).
Defined.

(** * Further properties of the provider *)

Section MoreProvider.
Context `{Engine}.

(** X1. The check of lines 182-186 answers true on exactly the well-formed
    questions: a string [question], an [options] array of four strings and
    a string [answer] that is one of them. *)
Theorem X1_check_accepts_exactly_the_well_formed q :
  question_check q = Returned true ↔ WellFormedQuestion q.
Proof. apply question_check_well_formed. Qed.

Lemma question_check_cases q :
  match q with
  | VNull | VUndefined => question_check q = Thrown (TypeError_read q "question")
  | _ => ∃ b, question_check q = Returned b
  end.
Proof.
  destruct q as [| | | | | |properties]; try (by eexists); try done.
  destruct (question_check (VObj properties)) as [b|e] eqn:Hcheck; [by exists b|].
  by apply question_check_throws in Hcheck as [|].
Qed.

(** X2. The check throws on [null] and [undefined], when it reads their
    [question], and on nothing else: on every other value it answers true
    or false. *)
Theorem X2_check_throws_on_null_only q :
  match q with
  | VNull | VUndefined => question_check q = Thrown (TypeError_read q "question")
  | _ => ∃ b, question_check q = Returned b
  end.
Proof. apply question_check_cases. Qed.

Lemma Array_every_first_failure (f : value → Completion bool) good bad rest :
  Forall (λ x, f x = Returned true) good →
  f bad ≠ Returned true →
  Array_every f (good ++ bad :: rest)%list
    = match f bad with
      | Returned _ => Returned false
      | Thrown e => Thrown e
      end.
Proof.
  intros Hgood Hbad. induction Hgood as [|x good Hx _ IH]; simpl.
  - unfold cbind. by destruct (f bad) as [[]|].
  - unfold cbind at 1. by rewrite Hx.
Qed.

(** The call once the text part has parsed. *)
Lemma generateQuestionsWithAI_parsed language r result jsonString parsedQuestions st :
  ok r = true →
  json r = Returned result →
  has_text_part result = Returned true →
  text_part result = Returned jsonString →
  JSON_parse (ToString jsonString) = Some parsedQuestions →
  generateQuestionsWithAI language (FetchResponse r) st
    = match questions_check parsedQuestions with
      | Returned true =>
          (Returned (array_elements parsedQuestions), after_provider language [] st)
      | Returned false =>
          (Returned [],
           after_provider language
             ["Failed to parse AI-generated questions. Please try again."] st)
      | Thrown e =>
          (Returned [],
           after_provider language
             ["Failed to generate questions: " ++ message e
              ++ ". Please check your network or try again."] st)
      end.
Proof.
  intros Hok Hjson Hpart Htext Hparse.
  unfold generateQuestionsWithAI, generateQuestionsWithAI_try,
    generateQuestionsWithAI_catch, try_finally, try_catch, bind, fetch,
    alert, assign, eval, ret, throw, after_provider, JSON_parse_value.
  simpl. rewrite Hok. simpl. rewrite Hjson. simpl. rewrite Hpart. simpl.
  rewrite Htext. simpl. rewrite Hparse. simpl.
  destruct (questions_check parsedQuestions) as [[]|e]; simpl; [|done..].
  by rewrite app_nil_r.
Qed.

(** X3. When the text part parses to an array, the first element that is
    not well formed decides what the user is told, and the elements after
    it are not looked at: the notice is the one of the validation, unless
    that element is [null] or [undefined], on which the check throws and
    the notice is the one of the [catch] block. *)
Theorem X3_first_ill_formed_element_decides_the_notice
    language r result jsonString good bad rest st :
  ok r = true →
  json r = Returned result →
  has_text_part result = Returned true →
  text_part result = Returned jsonString →
  JSON_parse (ToString jsonString) = Some (VArr (good ++ bad :: rest)) →
  Forall WellFormedQuestion good →
  ¬ WellFormedQuestion bad →
  generateQuestionsWithAI language (FetchResponse r) st
    = (Returned [],
       after_provider language
         [match bad with
          | VNull | VUndefined =>
              "Failed to generate questions: " ++ message (TypeError_read bad "question")
              ++ ". Please check your network or try again."
          | _ => "Failed to parse AI-generated questions. Please try again."
          end] st).
Proof.
  intros Hok Hjson Hpart Htext Hparse Hgood Hbad.
  rewrite (generateQuestionsWithAI_parsed _ _ _ _ _ _ Hok Hjson Hpart Htext Hparse).
  simpl. rewrite Array_every_first_failure.
  - pose proof (question_check_cases bad) as Hcases.
    destruct bad; try reflexivity;
      (destruct Hcases as [b Hb]; rewrite Hb; destruct b; [|done];
       by apply question_check_well_formed in Hb).
  - eapply Forall_impl; [exact Hgood|]. intros q. apply question_check_well_formed.
  - by rewrite question_check_well_formed.
Qed.

(** X4. Whatever the network answers, one call of the provider sends one
    request, shows at most one notice (none exactly when it accepts the
    answer), ends with the spinner hidden and the language selection
    hidden, and leaves the quiz alone: the questions held, the index, the
    score, the answered flag, the question on display and the visibility
    of the quiz and of the score card are as they were. *)
Theorem X4_provider_sends_one_request_and_leaves_the_quiz language net st :
  ∃ questions notices st',
    generateQuestionsWithAI language net st = (Returned questions, st') ∧
    length notices ≤ 1 ∧
    (notices = [] ↔ provider_accepts net questions) ∧
    alerts st' = (alerts st ++ notices)%list ∧
    requests st' = (requests st ++ [prompt_for language])%list ∧
    loadingIndicator_hidden st' = true ∧
    languageSelectionSection_hidden st' = true ∧
    currentQuestions st' = currentQuestions st ∧
    currentQuestionIndex st' = currentQuestionIndex st ∧
    score st' = score st ∧
    answeredThisQuestion st' = answeredThisQuestion st ∧
    questionText st' = questionText st ∧
    optionsContainer st' = optionsContainer st ∧
    quizContainer_hidden st' = quizContainer_hidden st ∧
    scoreCard_hidden st' = scoreCard_hidden st.
Proof.
  destruct (generateQuestionsWithAI_cases language net st)
    as (questions & notices & Hrun & Hcases).
  exists questions, notices, (after_provider language notices st).
  split; [done|]. split; [|split]; [..|done].
  - destruct Hcases as [[-> _] | (_ & _ & notice & ->)]; simpl; lia.
  - destruct Hcases as [[-> Haccepts] | (Hfail & -> & notice & ->)]; [done|].
    split; [done|]. intros Haccepts.
    destruct (failure_not_accepted net [] Hfail Haccepts).
Qed.

(** X5. When the request itself is rejected (no network, no answer), the
    call returns the empty list after one notice that carries the message
    of the rejection. *)
Theorem X5_rejected_request_is_reported language e st :
  generateQuestionsWithAI language (FetchRejected e) st
    = (Returned [],
       after_provider language
         ["Failed to generate questions: " ++ message e
          ++ ". Please check your network or try again."] st).
Proof. reflexivity. Qed.

(** X6. A success whose decoded body is an object without [candidates], or
    with an empty [candidates] array, has no text part: the call returns
    the empty list after the notice of line 197, and does not try to parse
    anything. *)
Theorem X6_missing_candidates_is_reported language r properties st :
  ok r = true →
  json r = Returned (VObj properties) →
  own_property "candidates" properties = None ∨
  own_property "candidates" properties = Some (VArr []) →
  generateQuestionsWithAI language (FetchResponse r) st
    = (Returned [],
       after_provider language
         ["AI did not return valid questions. Please try again."] st).
Proof.
  intros Hok Hjson Hcandidates.
  assert (has_text_part (VObj properties) = Returned false) as Hpart.
  { unfold has_text_part. simpl. by destruct Hcandidates as [->| ->]. }
  unfold generateQuestionsWithAI, generateQuestionsWithAI_try,
    generateQuestionsWithAI_catch, try_finally, try_catch, bind, fetch,
    alert, assign, eval, ret, throw, after_provider.
  simpl. rewrite Hok. simpl. rewrite Hjson. simpl. by rewrite Hpart.
Qed.

(** X7. A text part that parses to something that is not an array (an
    object, a string, a number, [null]) is rejected by the validation: the
    call returns the empty list after the notice of line 191. *)
Theorem X7_payload_that_is_not_an_array_is_rejected
    language r result jsonString parsedQuestions st :
  ok r = true →
  json r = Returned result →
  has_text_part result = Returned true →
  text_part result = Returned jsonString →
  JSON_parse (ToString jsonString) = Some parsedQuestions →
  (∀ elements, parsedQuestions ≠ VArr elements) →
  generateQuestionsWithAI language (FetchResponse r) st
    = (Returned [],
       after_provider language
         ["Failed to parse AI-generated questions. Please try again."] st).
Proof.
  intros Hok Hjson Hpart Htext Hparse Hshape.
  rewrite (generateQuestionsWithAI_parsed _ _ _ _ _ _ Hok Hjson Hpart Htext Hparse).
  destruct parsedQuestions; try done. by destruct (Hshape elements).
Qed.

(** X8. A text part that is not JSON makes [JSON.parse] throw inside the
    [try] block: the call returns the empty list after one notice that
    carries the message of the syntax error. *)
Theorem X8_text_that_does_not_parse_is_reported language r result jsonString st :
  ok r = true →
  json r = Returned result →
  has_text_part result = Returned true →
  text_part result = Returned jsonString →
  JSON_parse (ToString jsonString) = None →
  generateQuestionsWithAI language (FetchResponse r) st
    = (Returned [],
       after_provider language
         ["Failed to generate questions: "
          ++ message (SyntaxError_JSON (ToString jsonString))
          ++ ". Please check your network or try again."] st).
Proof.
  intros Hok Hjson Hpart Htext Hparse.
  unfold generateQuestionsWithAI, generateQuestionsWithAI_try,
    generateQuestionsWithAI_catch, try_finally, try_catch, bind, fetch,
    alert, assign, eval, ret, throw, after_provider, JSON_parse_value.
  simpl. rewrite Hok. simpl. rewrite Hjson. simpl. rewrite Hpart. simpl.
  rewrite Htext. simpl. by rewrite Hparse.
Qed.

(** X20. A success whose body cannot be decoded as JSON makes
    [response.json()] reject inside the [try] block: the call returns the
    empty list after one notice that carries the message of that error,
    and the text part is never looked for. *)
Theorem X20_undecodable_body_is_reported language r e st :
  ok r = true →
  json r = Thrown e →
  generateQuestionsWithAI language (FetchResponse r) st
    = (Returned [],
       after_provider language
         ["Failed to generate questions: " ++ message e
          ++ ". Please check your network or try again."] st).
Proof.
  intros Hok Hjson.
  unfold generateQuestionsWithAI, generateQuestionsWithAI_try,
    generateQuestionsWithAI_catch, try_finally, try_catch, bind, fetch,
    alert, assign, eval, ret, throw, after_provider.
  simpl. rewrite Hok. simpl. by rewrite Hjson.
Qed.

Lemma Get_truthy v p : ToBoolean v = true → ∃ x, Get v p = Returned x.
Proof. destruct v; simpl; try discriminate; eauto. Qed.

Lemma GetIndex_truthy v i : ToBoolean v = true → ∃ x, GetIndex v i = Returned x.
Proof. destruct v; simpl; try discriminate; eauto. Qed.

Lemma Get_throws v p e :
  Get v p = Thrown e → (v = VNull ∨ v = VUndefined) ∧ e = TypeError_read v p.
Proof. destruct v; simpl; intros [= <-] || discriminate; auto. Qed.

(** X21. The test of lines 173-175 on the decoded body can throw at two
    places only: reading [candidates] of a body that is [null], and
    reading [content] of a first candidate that is [null] or missing.  On
    every other body it answers true or false. *)
Theorem X21_text_part_test_throws_at_two_places result e :
  has_text_part result = Thrown e →
  (result = VNull ∨ result = VUndefined) ∧ e = TypeError_read result "candidates" ∨
  ∃ candidates candidate,
    Get result "candidates" = Returned candidates ∧
    GetIndex candidates 0 = Returned candidate ∧
    (candidate = VNull ∨ candidate = VUndefined) ∧
    e = TypeError_read candidate "content".
Proof.
  unfold has_text_part, cbind.
  destruct (Get result "candidates") as [candidates|e1] eqn:Hcandidates.
  2: { intros [= <-]. left. by apply Get_throws. }
  destruct (ToBoolean candidates) eqn:Htruthy; [|discriminate]. simpl.
  destruct (Get_truthy candidates "length" Htruthy) as [len ->].
  destruct (greater_than_zero len); [|discriminate]. simpl.
  destruct (GetIndex_truthy candidates 0 Htruthy) as [candidate Hcandidate].
  rewrite Hcandidate.
  destruct (Get candidate "content") as [content|e2] eqn:Hcontent.
  2: { intros [= <-]. right. exists candidates, candidate.
       apply Get_throws in Hcontent as [? ->]. done. }
  destruct (ToBoolean content) eqn:Hcontent_truthy; [|discriminate]. simpl.
  destruct (Get_truthy content "parts" Hcontent_truthy) as [parts ->].
  destruct (ToBoolean parts) eqn:Hparts; [|discriminate]. simpl.
  destruct (Get_truthy parts "length" Hparts) as [plen ->]. discriminate.
Qed.

End MoreProvider.

(** * Further properties of the quiz *)

Section MoreQuiz.
Context `{Engine}.

(** X9. [startQuiz] never throws and never leaves a quiz half started:
    whatever the page held and whatever the network answers, it ends with
    the spinner hidden and only well-formed questions held, either on the
    topic selection with no question, or on a quiz shown from its first
    question with the score at zero. *)
Theorem X9_startQuiz_ends_idle_or_started net st :
  ∃ st',
    startQuiz net st = (Returned tt, st') ∧
    Forall WellFormedQuestion (currentQuestions st') ∧
    loadingIndicator_hidden st' = true ∧
    ((currentQuestions st' = [] ∧ Idle st') ∨
     (currentQuestions st' ≠ [] ∧
      languageSelectionSection_hidden st' = true ∧
      quizContainer_hidden st' = false ∧
      scoreCard_hidden st' = true ∧
      nextButton_hidden st' = true ∧
      currentQuestionIndex st' = 0 ∧
      score st' = 0 ∧
      answeredThisQuestion st' = false)).
Proof.
  destruct (generateQuestionsWithAI_cases (languageSelect_value st) net st)
    as (questions & notices & Hprovider & [[-> Haccepts] | (_ & -> & _)]).
  - destruct questions as [|question questions'].
    + rewrite (startQuiz_nothing_returned _ _ _ Hprovider).
      eexists. split; [done|]. split; [constructor|]. split; [done|]. by left.
    + destruct (startQuiz_accepted net (question :: questions') st Haccepts)
        as (Hall & q & question_text & shuffled & draws & ->); [done|].
      eexists. split; [done|]. split; [done|]. split; [done|]. by right.
  - rewrite (startQuiz_nothing_returned _ _ _ Hprovider).
    eexists. split; [done|]. split; [constructor|]. split; [done|]. by left.
Qed.

(** X10. When the network's answer falls short in any of the listed ways,
    [startQuiz] is back on the topic selection after exactly one notice;
    the questions of an earlier quiz are dropped, and the index, the score
    and the question on display are left as they were. *)
Theorem X10_failed_start_returns_to_idle_with_one_notice net st :
  ProviderFailure net →
  ∃ notice st',
    startQuiz net st = (Returned tt, st') ∧
    Idle st' ∧
    alerts st' = (alerts st ++ [notice])%list ∧
    currentQuestions st' = [] ∧
    currentQuestionIndex st' = currentQuestionIndex st ∧
    score st' = score st ∧
    answeredThisQuestion st' = answeredThisQuestion st ∧
    questionText st' = questionText st ∧
    optionsContainer st' = optionsContainer st.
Proof. apply startQuiz_failure. Qed.

(** ** The first click on a question *)

Lemma selectOption_first i (chosen answer : string) st :
  answeredThisQuestion st = false →
  let hit := bool_decide (chosen = answer) in
  ∃ st',
    selectOption i (VStr chosen) (VStr answer) st = (Returned tt, st') ∧
    answeredThisQuestion st' = true ∧
    nextButton_hidden st' = false ∧
    score st' = score st + (if hit then 1 else 0) ∧
    outside_untouched st st' ∧
    optionsContainer st'
      = (if hit then
           alter (classList_add "correct") i (set_disabled true <$> optionsContainer st)
         else
           (λ button, if bool_decide (textContent button = answer)
                      then classList_add "correct" button else button)
             <$> alter (classList_add "incorrect") i
                   (set_disabled true <$> optionsContainer st)).
Proof.
  intros Hunanswered hit. subst hit.
  unfold selectOption, bind, read, assign. rewrite Hunanswered. simpl.
  destruct (String.eqb_spec chosen answer) as [->|Hne].
  - rewrite bool_decide_eq_true_2 by done. simpl.
    eexists. split; [done|]. simpl. repeat split; lia.
  - rewrite bool_decide_eq_false_2 by done. simpl.
    eexists. split; [done|]. simpl. repeat split; try lia.
    apply list_fmap_ext. intros _ button _. simpl.
    destruct (String.eqb_spec (textContent button) answer).
    + by rewrite bool_decide_eq_true_2.
    + by rewrite bool_decide_eq_false_2.
Qed.

Lemma option_click_button i button st :
  optionsContainer st !! i = Some button →
  option_click i st
    = match Get (listener_question button) "answer" with
      | Returned answer => selectOption i (listener_option button) answer st
      | Thrown e => (Thrown e, st)
      end.
Proof.
  intros Hbutton. unfold option_click, bind, read, eval. cbv beta.
  rewrite Hbutton. by destruct (Get _ _).
Qed.

(** X11. The first click on a button of a question just put up: every
    button is disabled and keeps its text, the Next button appears, the
    score goes up by one exactly when the clicked button shows the answer,
    the clicked button is marked correct or incorrect accordingly, and
    after a wrong choice every button that shows the answer is marked
    correct; some button does show it. *)
Theorem X11_first_click_marks_the_buttons st question i :
  nth (currentQuestionIndex st) (currentQuestions st) VUndefined = question →
  WellFormedQuestion question →
  i < 4 →
  ∃ st1 st2 clicked (answer : string),
    loadQuestion st = (Returned tt, st1) ∧
    option_click i st1 = (Returned tt, st2) ∧
    Get question "answer" = Returned (VStr answer) ∧
    optionsContainer st1 !! i = Some clicked ∧
    let hit := bool_decide (textContent clicked = answer) in
    score st2 = score st + (if hit then 1 else 0) ∧
    answeredThisQuestion st2 = true ∧
    nextButton_hidden st2 = false ∧
    (∃ j shown, optionsContainer st1 !! j = Some shown ∧ textContent shown = answer) ∧
    length (optionsContainer st2) = 4 ∧
    ∀ j before,
      optionsContainer st1 !! j = Some before →
      ∃ after,
        optionsContainer st2 !! j = Some after ∧
        textContent after = textContent before ∧
        disabled after = true ∧
        classList after
          = marks_after_click i j hit (bool_decide (textContent before = answer)).
Proof.
  intros Hcurrent Hwf Hi.
  destruct (well_formed_options question Hwf)
    as (question_text & answer & options & Htext & Hoptions & Hanswer & Hlength & Hin).
  destruct (loadQuestion_renders st question _ _ Hcurrent Htext Hoptions)
    as (shuffled & draws & Hload & Hperm & _).
  set (st1 := rendered question (DOMString (VStr question_text)) shuffled draws st) in *.
  assert (optionsContainer st1 = option_button question <$> shuffled) as Hbuttons by done.
  assert (length shuffled = 4) as Hshuffled by (by rewrite Hperm, length_fmap).
  assert (∀ j v, shuffled !! j = Some v → ∃ o : string, v = VStr o ∧ o ∈ options) as Hstrings.
  { intros j v Hv. apply list_elem_of_lookup_2 in Hv. rewrite Hperm in Hv.
    apply list_elem_of_fmap in Hv as (o & -> & Ho). eauto. }
  destruct (lookup_lt_is_Some_2 shuffled i) as [v Hv]; [lia|].
  destruct (Hstrings i v Hv) as (chosen & -> & _).
  set (clicked := option_button question (VStr chosen)).
  assert (optionsContainer st1 !! i = Some clicked) as Hclicked.
  { by rewrite Hbuttons, list_lookup_fmap, Hv. }
  destruct (selectOption_first i chosen answer st1 eq_refl)
    as (st2 & Hselect & Hanswered & Hnext & Hscore & _ & Hafter).
  exists st1, st2, clicked, answer.
  split; [done|]. split.
  { rewrite (option_click_button i clicked st1 Hclicked). simpl.
    rewrite Hanswer. exact Hselect. }
  split; [done|]. split; [done|]. cbv zeta.
  change (textContent clicked) with chosen.
  split; [done|]. split; [done|]. split; [done|]. split.
  { assert (VStr answer ∈ shuffled) as Hshown.
    { rewrite Hperm. by apply list_elem_of_fmap_2. }
    apply list_elem_of_lookup_1 in Hshown as [j Hj].
    exists j, (option_button question (VStr answer)). split; [|done].
    by rewrite Hbuttons, list_lookup_fmap, Hj. }
  split.
  { rewrite Hafter, Hbuttons. destruct (bool_decide (chosen = answer));
      rewrite ?length_fmap, length_alter, !length_fmap; exact Hshuffled. }
  intros j before Hbefore.
  rewrite Hbuttons, list_lookup_fmap in Hbefore.
  destruct (shuffled !! j) as [w|] eqn:Hw; [|done].
  destruct (Hstrings j w Hw) as (o & -> & _).
  injection Hbefore as <-. rewrite Hafter, Hbuttons.
  unfold marks_after_click. simpl.
  destruct (decide (j = i)) as [->|Hji].
  - assert (o = chosen) as -> by congruence.
    rewrite (bool_decide_eq_true_2 (i = i)) by done.
    destruct (bool_decide (chosen = answer)) eqn:Hhit.
    + eexists. rewrite list_lookup_alter_eq, !list_lookup_fmap, Hv. simpl.
      split; [done|]. done.
    + eexists. rewrite list_lookup_fmap, list_lookup_alter_eq, !list_lookup_fmap, Hv.
      simpl. split; [done|]. rewrite Hhit. done.
  - rewrite (bool_decide_eq_false_2 (j = i)) by done.
    destruct (bool_decide (chosen = answer)) eqn:Hhit.
    + eexists. rewrite list_lookup_alter_ne, !list_lookup_fmap, Hw by (intros ->; done). simpl.
      split; [done|]. done.
    + eexists.
      rewrite list_lookup_fmap, list_lookup_alter_ne, !list_lookup_fmap, Hw
        by (intros ->; done).
      simpl. split; [done|].
      destruct (bool_decide (o = answer)); done.
Qed.

(** ** Playing, with any clicks *)

Lemma outside_untouched_refl st : outside_untouched st st.
Proof. by repeat split. Qed.

Lemma outside_untouched_trans st1 st2 st3 :
  outside_untouched st1 st2 → outside_untouched st2 st3 → outside_untouched st1 st3.
Proof.
  intros (? & ? & ? & ? & ? & ?) (? & ? & ? & ? & ? & ?).
  repeat split; congruence.
Qed.

Lemma perform_select_keeps button option st :
  WellFormedQuestion (nth (currentQuestionIndex st) (currentQuestions st) VUndefined) →
  ∃ st',
    perform (Select button option) st = (Returned tt, st') ∧
    outside_untouched st st' ∧
    currentQuestionIndex st' = currentQuestionIndex st ∧
    scoreCard_hidden st' = scoreCard_hidden st ∧
    quizContainer_hidden st' = quizContainer_hidden st ∧
    answeredThisQuestion st' = true ∧
    score st ≤ score st' ∧
    score st' ≤ score st + (if answeredThisQuestion st then 0 else 1).
Proof.
  intros Hwf.
  destruct (well_formed_options _ Hwf)
    as (question_text & answer & options & _ & _ & Hanswer & _).
  unfold perform, bind, read, eval. rewrite Hanswer.
  destruct (answeredThisQuestion st) eqn:Hanswered.
  - rewrite selectOption_answered by done. exists st.
    split; [done|]. split; [apply outside_untouched_refl|].
    repeat split; try done; lia.
  - unfold selectOption, bind, read, assign. rewrite Hanswered.
    destruct (strict_equal option (VStr answer)); simpl;
      (eexists; split; [done|]; split; [by repeat split|]; simpl;
       repeat split; lia).
Qed.

Lemma loadNextQuestion_more_keeps st :
  Forall WellFormedQuestion (currentQuestions st) →
  S (currentQuestionIndex st) < length (currentQuestions st) →
  ∃ st',
    loadNextQuestion st = (Returned tt, st') ∧
    outside_untouched st st' ∧
    currentQuestionIndex st' = S (currentQuestionIndex st) ∧
    scoreCard_hidden st' = scoreCard_hidden st ∧
    quizContainer_hidden st' = quizContainer_hidden st ∧
    answeredThisQuestion st' = false ∧
    score st' = score st.
Proof.
  intros Hall Hmore.
  pose proof (nth_well_formed _ _ Hall Hmore) as Hwf.
  destruct (well_formed_options _ Hwf)
    as (question_text & answer & options & Htext & Hoptions & _).
  unfold loadNextQuestion, bind, assign, read. simpl.
  apply Nat.ltb_lt in Hmore as Hltb. rewrite Hltb.
  match goal with
  | |- context [loadQuestion ?st1] =>
      destruct (loadQuestion_renders st1 _ _ _ eq_refl Htext Hoptions)
        as (shuffled & draws & -> & _)
  end.
  eexists. split; [done|]. split; [by repeat split|]. done.
Qed.

(** The quiz while a question is left to come, whatever is clicked. *)
Lemma play_in_progress actions :
  ∀ st,
    Forall WellFormedQuestion (currentQuestions st) →
    scoreCard_hidden st = true →
    quizContainer_hidden st = false →
    currentQuestionIndex st + Next_count actions < length (currentQuestions st) →
    score st ≤ currentQuestionIndex st + (if answeredThisQuestion st then 1 else 0) →
    ∃ st',
      perform_all actions st = (Returned tt, st') ∧
      outside_untouched st st' ∧
      currentQuestionIndex st' = currentQuestionIndex st + Next_count actions ∧
      scoreCard_hidden st' = true ∧
      quizContainer_hidden st' = false ∧
      score st ≤ score st' ∧
      score st' ≤ currentQuestionIndex st' + (if answeredThisQuestion st' then 1 else 0).
Proof.
  induction actions as [|[button option|] actions IH];
    intros st Hall Hcard Hquiz Hleft Hscore; simpl in Hleft.
  - exists st. split; [done|]. split; [apply outside_untouched_refl|].
    simpl. repeat split; try done; lia.
  - destruct (perform_select_keeps button option st)
      as (st1 & Hselect & Hout & Hi & Hc & Hz & Hans & Hlow & Hhigh).
    { apply nth_well_formed; [done|lia]. }
    pose proof Hout as (_ & _ & Hq & _).
    destruct (IH st1) as (st' & Hrun & Hout' & Hi' & Hc' & Hz' & Hlow' & Hhigh');
      try congruence.
    { rewrite Hi, Hans. destruct (answeredThisQuestion st); lia. }
    exists st'. rewrite perform_all_cons, Hselect. split; [done|].
    split; [by eapply outside_untouched_trans|]. simpl.
    repeat split; try congruence; lia.
  - destruct (loadNextQuestion_more_keeps st Hall)
      as (st1 & Hnext & Hout & Hi & Hc & Hz & Hans & Hsc); [lia|].
    pose proof Hout as (_ & _ & Hq & _).
    destruct (IH st1) as (st' & Hrun & Hout' & Hi' & Hc' & Hz' & Hlow' & Hhigh');
      try congruence.
    { rewrite Hi, Hq. lia. }
    { rewrite Hi, Hans, Hsc. destruct (answeredThisQuestion st); lia. }
    exists st'. rewrite perform_all_cons.
    change (perform Next st) with (loadNextQuestion st). rewrite Hnext.
    split; [done|]. split; [by eapply outside_untouched_trans|]. simpl.
    repeat split; try congruence; lia.
Qed.

Lemma play_from_fresh questions st actions :
  freshly_started questions st →
  Next_count actions < length questions →
  ∃ st',
    perform_all actions st = (Returned tt, st') ∧
    outside_untouched st st' ∧
    currentQuestions st' = questions ∧
    Forall WellFormedQuestion questions ∧
    currentQuestionIndex st' = Next_count actions ∧
    scoreCard_hidden st' = true ∧
    quizContainer_hidden st' = false ∧
    score st' ≤ Next_count actions + (if answeredThisQuestion st' then 1 else 0).
Proof.
  intros Hfresh Hleft.
  destruct (freshly_started_session questions st Hfresh)
    as (Hall & Hquestions & Hindex & Hscore & Hanswered & Hquiz & Hcard).
  destruct (play_in_progress actions st)
    as (st' & Hrun & Hout & Hi & Hc & Hz & _ & Hhigh); try done.
  - by rewrite Hquestions.
  - rewrite Hquestions, Hindex. simpl. lia.
  - rewrite Hscore. lia.
  - exists st'. pose proof Hout as (_ & _ & Hq & _).
    rewrite Hindex in Hi. simpl in Hi. rewrite Hi in Hhigh.
    split; [done|]. split; [done|]. split; [congruence|]. done.
Qed.

(** The screen of a freshly started session. *)
Lemma freshly_started_screen questions st :
  freshly_started questions st →
  languageSelectionSection_hidden st = true ∧
  loadingIndicator_hidden st = true ∧
  nextButton_hidden st = true.
Proof.
  intros (net & before & Hrun & Hquestions & Hsome).
  destruct (generateQuestionsWithAI_cases (languageSelect_value before) net before)
    as (returned & notices & Hprovider & [[-> Haccepts] | (_ & -> & _)]).
  - destruct returned as [|question returned'].
    + rewrite (startQuiz_nothing_returned _ _ _ Hprovider) in Hrun.
      injection Hrun as <-. cbn in Hquestions. congruence.
    + destruct (startQuiz_accepted net (question :: returned') before Haccepts)
        as (Hall & q & question_text & shuffled & draws & Hstart); [done|].
      rewrite Hstart in Hrun. injection Hrun as <-. done.
  - rewrite (startQuiz_nothing_returned _ _ _ Hprovider) in Hrun.
    injection Hrun as <-. cbn in Hquestions. congruence.
Qed.


(** X13. Playing is silent and safe: on a freshly started session, any
    selections and presses of Next that leave a question to come run
    without an exception, send no request and show no notice, keep the
    questions as received, keep the quiz on screen, and leave the index at
    the number of presses of Next. *)
Theorem X13_playing_never_throws_and_is_silent questions st actions :
  freshly_started questions st →
  Next_count actions < length questions →
  ∃ st',
    perform_all actions st = (Returned tt, st') ∧
    alerts st' = alerts st ∧
    requests st' = requests st ∧
    currentQuestions st' = questions ∧
    currentQuestionIndex st' = Next_count actions ∧
    quizContainer_hidden st' = false ∧
    scoreCard_hidden st' = true ∧
    languageSelectionSection_hidden st' = true ∧
    loadingIndicator_hidden st' = true.
Proof.
  intros Hfresh Hleft.
  destruct (play_from_fresh questions st actions Hfresh Hleft)
    as (st' & Hrun & (Ha & Hr & _ & _ & Hl & Hs) & Hq & _ & Hi & Hc & Hz & _).
  destruct (freshly_started_screen questions st Hfresh) as (Hlang & Hspinner & _).
  exists st'. rewrite Hl, Hs. done.
Qed.

Lemma loadNextQuestion_last_keeps st :
  length (currentQuestions st) ≤ S (currentQuestionIndex st) →
  ∃ st',
    loadNextQuestion st = (Returned tt, st') ∧
    outside_untouched st st' ∧
    currentQuestionIndex st' = S (currentQuestionIndex st) ∧
    score st' = score st ∧
    finalScoreSpan st' = pretty (score st) ∧
    totalQuestionsSpan st' = pretty (length (currentQuestions st)) ∧
    scoreCard_hidden st' = false ∧
    quizContainer_hidden st' = true ∧
    optionsContainer st' = optionsContainer st ∧
    questionText st' = questionText st ∧
    random_calls st' = random_calls st.
Proof.
  intros Hlast. unfold loadNextQuestion, bind, assign, read. simpl.
  assert (¬ S (currentQuestionIndex st) < length (currentQuestions st))
    as ->%Nat.ltb_nlt by lia.
  eexists. split; [done|]. split; [by repeat split|]. done.
Qed.

(** X14. However the quiz was played, the press of Next on the last
    question replaces the quiz by the score card, and the card shows, in
    decimal, the score reached and the number of questions; no request is
    sent and no notice shown. *)
Theorem X14_score_card_shows_score_and_total questions st actions :
  freshly_started questions st →
  S (Next_count actions) = length questions →
  ∃ st_k st',
    perform_all actions st = (Returned tt, st_k) ∧
    loadNextQuestion st_k = (Returned tt, st') ∧
    score st' = score st_k ∧
    finalScoreSpan st' = pretty (score st_k) ∧
    totalQuestionsSpan st' = pretty (length questions) ∧
    scoreCard_hidden st' = false ∧
    quizContainer_hidden st' = true ∧
    alerts st' = alerts st ∧
    requests st' = requests st.
Proof.
  intros Hfresh Hlast.
  destruct (play_from_fresh questions st actions Hfresh)
    as (st_k & Hrun & (Ha & Hr & _) & Hq & _ & Hi & _); [lia|].
  destruct (loadNextQuestion_last_keeps st_k)
    as (st' & Hnext & (Ha' & Hr' & _) & _ & Hs & Hfinal & Htotal & Hc & Hz & _).
  { rewrite Hq, Hi. lia. }
  exists st_k, st'. rewrite Hq in Htotal.
  repeat split; try done; congruence.
Qed.

(** X15. Next never reads past the end of the questions: on a page whose
    questions are well formed it returns without an exception wherever
    the index is, moves the index on by one and keeps the score and the
    questions; at the last question or beyond, it only shows the score
    card: no question is loaded, the buttons and the text on display stay,
    and [Math.random] is not called. *)
Theorem X15_Next_never_reads_past_the_end st :
  Forall WellFormedQuestion (currentQuestions st) →
  ∃ st',
    loadNextQuestion st = (Returned tt, st') ∧
    currentQuestionIndex st' = S (currentQuestionIndex st) ∧
    score st' = score st ∧
    currentQuestions st' = currentQuestions st ∧
    (length (currentQuestions st) ≤ S (currentQuestionIndex st) →
     scoreCard_hidden st' = false ∧
     quizContainer_hidden st' = true ∧
     optionsContainer st' = optionsContainer st ∧
     questionText st' = questionText st ∧
     random_calls st' = random_calls st).
Proof.
  intros Hall.
  destruct (decide (S (currentQuestionIndex st) < length (currentQuestions st)))
    as [Hmore|Hlast].
  - destruct (loadNextQuestion_more_keeps st Hall Hmore)
      as (st' & Hnext & (_ & _ & Hq & _) & Hi & _ & _ & _ & Hs).
    exists st'. repeat split; try done; lia.
  - destruct (loadNextQuestion_last_keeps st)
      as (st' & Hnext & (_ & _ & Hq & _) & Hi & Hs & _ & _ & Hrest); [lia|].
    exists st'. repeat split; try done; by destruct Hrest as (? & ? & ? & ? & ?).
Qed.

(** X16. Two calls of [selectOption] in a row, with any arguments, on any
    page: the second changes nothing, so together they raise the score by
    at most one. *)
Theorem X16_second_selection_changes_nothing b1 o1 a1 b2 o2 a2 st :
  let once := (selectOption b1 o1 a1 st).2 in
  selectOption b2 o2 a2 once = (Returned tt, once) ∧
  score st ≤ score once ≤ score st + 1.
Proof.
  intros once. split; [apply selectOption_twice|]. subst once.
  destruct (answeredThisQuestion st) eqn:Hanswered.
  - rewrite selectOption_answered by done. simpl. lia.
  - destruct (selectOption_unanswered b1 o1 a1 st Hanswered) as (st' & -> & _ & Hs & _).
    simpl. rewrite Hs. destruct (strict_equal o1 a1); lia.
Qed.

End MoreQuiz.

(** * Properties of the Firebase bootstrap *)

Section MoreBootstrap.
Context `{Engine} `{Platform}.

(** X17. With no configuration ([__firebase_config] undefined, so the
    text parsed is the empty object) or a configuration that parses to a
    value without keys, [initializeFirebase] logs that the configuration
    is missing and stops there: no SDK handle is kept, no listener is
    registered, and nothing is thrown. *)
Theorem X17_missing_configuration_initializes_nothing g s firebaseConfig :
  JSON_parse (ToString (default (VStr "{}") (__firebase_config g))) = Some firebaseConfig →
  Object_keys_length firebaseConfig = inr 0 →
  initializeFirebase g s
    = (inr tt,
       log (console_error
              "Firebase config is missing or empty. Cannot initialize Firebase." None) s).
Proof.
  intros Hparse Hkeys. unfold initializeFirebase, initializeFirebase_try.
  by rewrite Hparse, Hkeys.
Qed.

(** X18. [initializeFirebase] never throws, whatever the globals hold and
    whatever the SDK does, and it leaves [userId] alone.  Either it goes
    all the way (the listener is registered, [db] and [auth] hold their
    handles, nothing is logged), or it registers no listener and logs
    exactly one error; and [auth] is never assigned unless [db] has
    been. *)
Theorem X18_bootstrap_never_throws g s :
  ∃ s',
    initializeFirebase g s = (inr tt, s') ∧
    userId s' = userId s ∧
    uuid_calls s' = uuid_calls s ∧
    ((auth_listener s' = true ∧ is_Some (db s') ∧ is_Some (auth s') ∧
      console s' = console s) ∨
     (auth_listener s' = auth_listener s ∧
      ∃ label error, console s' = (console s ++ [console_error label error])%list)) ∧
    (auth s' ≠ auth s → is_Some (db s')).
Proof.
  unfold initializeFirebase, initializeFirebase_try, calling.
  destruct (JSON_parse _) as [firebaseConfig|].
  2: { eexists. split; [done|]. simpl. repeat split; try done. right. eauto. }
  destruct (Object_keys_length firebaseConfig) as [e|keys].
  { eexists. split; [done|]. simpl. repeat split; try done. right. eauto. }
  destruct (keys =? 0).
  { eexists. split; [done|]. simpl. repeat split; try done. right. eauto. }
  destruct (initializeApp firebaseConfig) as [app|e].
  2: { eexists. split; [done|]. simpl. repeat split; try done. right. eauto. }
  destruct (getFirestore app) as [firestore|e].
  2: { eexists. split; [done|]. simpl. repeat split; try done. right. eauto. }
  destruct (getAuth app) as [handle|e].
  2: { eexists. split; [done|]. simpl. repeat split; try done. right. eauto. }
  destruct (onAuthStateChanged handle) as [[]|e].
  2: { eexists. split; [done|]. simpl. repeat split; try done. right. eauto. }
  eexists. split; [done|]. simpl. repeat split; try done. left. eauto.
Qed.


End MoreBootstrap.

(** * The further properties on the example page *)

Lemma X3_witness :
  @generateQuestionsWithAI Example.engine "Python" Example.one_short_question Example.page
    = (Returned [],
       after_provider "Python"
         ["Failed to parse AI-generated questions. Please try again."] Example.page).
Proof.
  apply (@X3_first_ill_formed_element_decides_the_notice Example.engine "Python"
           (Example.success Example.parsed_mixed)
           (Example.envelope (Example.json_text Example.parsed_mixed))
           (VStr (Example.json_text Example.parsed_mixed))
           [Example.q1] Example.q_short [] Example.page);
    try (vm_compute; reflexivity).
  - repeat constructor. apply Run.q1_well_formed.
  - apply Run.q_short_ill_formed.
Defined.

Lemma X6_witness :
  @generateQuestionsWithAI Example.engine "Python" (FetchResponse ExampleHost.blocked)
    Example.page
    = (Returned [],
       after_provider "Python"
         ["AI did not return valid questions. Please try again."] Example.page).
Proof.
  apply (@X6_missing_candidates_is_reported Example.engine "Python"
           ExampleHost.blocked [("promptFeedback", VObj [])] Example.page);
    [reflexivity | reflexivity | left; reflexivity].
Defined.

Lemma X7_witness :
  @generateQuestionsWithAI ExampleHost.engine "Python"
    (FetchResponse ExampleHost.object_payload) Example.page
    = (Returned [],
       after_provider "Python"
         ["Failed to parse AI-generated questions. Please try again."] Example.page).
Proof.
  apply (@X7_payload_that_is_not_an_array_is_rejected ExampleHost.engine "Python"
           ExampleHost.object_payload (Example.envelope "{}") (VStr "{}") (VObj [])
           Example.page);
    try (vm_compute; reflexivity).
  intros elements. discriminate.
Defined.

Lemma X8_witness :
  @generateQuestionsWithAI Example.engine "Python"
    (FetchResponse ExampleHost.prose_payload) Example.page
    = (Returned [],
       after_provider "Python"
         ["Failed to generate questions: Unexpected token in JSON. Please check your network or try again."]
         Example.page).
Proof.
  apply (@X8_text_that_does_not_parse_is_reported Example.engine "Python"
           ExampleHost.prose_payload (Example.envelope "Here are your questions")
           (VStr "Here are your questions") Example.page);
    vm_compute; reflexivity.
Defined.

Lemma X10_witness :
  ∃ notice st',
    @startQuiz Example.engine Example.unavailable Example.answered = (Returned tt, st') ∧
    Idle st' ∧
    alerts st' = (alerts Example.answered ++ [notice])%list ∧
    currentQuestions st' = [] ∧
    currentQuestionIndex st' = currentQuestionIndex Example.answered ∧
    score st' = score Example.answered ∧
    answeredThisQuestion st' = answeredThisQuestion Example.answered ∧
    questionText st' = questionText Example.answered ∧
    optionsContainer st' = optionsContainer Example.answered.
Proof.
  apply (@X10_failed_start_returns_to_idle_with_one_notice Example.engine
           Example.unavailable Example.answered).
  apply non_success_status. reflexivity.
Defined.

Lemma X11_witness :
  ∃ st1 st2 clicked (answer : string),
    @loadQuestion Example.engine Example.started = (Returned tt, st1) ∧
    option_click 1 st1 = (Returned tt, st2) ∧
    Get Example.q1 "answer" = Returned (VStr answer) ∧
    optionsContainer st1 !! 1 = Some clicked ∧
    let hit := bool_decide (textContent clicked = answer) in
    score st2 = score Example.started + (if hit then 1 else 0) ∧
    answeredThisQuestion st2 = true ∧
    nextButton_hidden st2 = false ∧
    (∃ j shown, optionsContainer st1 !! j = Some shown ∧ textContent shown = answer) ∧
    length (optionsContainer st2) = 4 ∧
    ∀ j before,
      optionsContainer st1 !! j = Some before →
      ∃ after,
        optionsContainer st2 !! j = Some after ∧
        textContent after = textContent before ∧
        disabled after = true ∧
        classList after
          = marks_after_click 1 j hit (bool_decide (textContent before = answer)).
Proof.
  apply (@X11_first_click_marks_the_buttons Example.engine Example.started
           Example.q1 1 eq_refl Run.q1_well_formed).
  lia.
Defined.


Lemma X13_witness :
  let actions :=
    [Select 0 (VStr "def"); Select 1 (VStr "def"); Next; Select 2 (VStr "2")] in
  ∃ st',
    @perform_all Example.engine actions Example.started = (Returned tt, st') ∧
    alerts st' = alerts Example.started ∧
    requests st' = requests Example.started ∧
    currentQuestions st' = [Example.q1; Example.q2] ∧
    currentQuestionIndex st' = 1 ∧
    quizContainer_hidden st' = false ∧
    scoreCard_hidden st' = true ∧
    languageSelectionSection_hidden st' = true ∧
    loadingIndicator_hidden st' = true.
Proof.
  apply (@X13_playing_never_throws_and_is_silent Example.engine
           [Example.q1; Example.q2] Example.started
           [Select 0 (VStr "def"); Select 1 (VStr "def"); Next; Select 2 (VStr "2")]
           Run.started_fresh).
  simpl. lia.
Defined.

Lemma X14_witness :
  let actions := [Select 0 (VStr "def"); Next; Select 2 (VStr "3")] in
  ∃ st_k st',
    @perform_all Example.engine actions Example.started = (Returned tt, st_k) ∧
    @loadNextQuestion Example.engine st_k = (Returned tt, st') ∧
    score st' = score st_k ∧
    finalScoreSpan st' = pretty (score st_k) ∧
    totalQuestionsSpan st' = "2" ∧
    scoreCard_hidden st' = false ∧
    quizContainer_hidden st' = true ∧
    alerts st' = alerts Example.started ∧
    requests st' = requests Example.started.
Proof.
  apply (@X14_score_card_shows_score_and_total Example.engine
           [Example.q1; Example.q2] Example.started
           [Select 0 (VStr "def"); Next; Select 2 (VStr "3")] Run.started_fresh).
  reflexivity.
Defined.

Lemma X15_witness :
  ∃ st',
    @loadNextQuestion Example.engine Example.started = (Returned tt, st') ∧
    currentQuestionIndex st' = S (currentQuestionIndex Example.started) ∧
    score st' = score Example.started ∧
    currentQuestions st' = currentQuestions Example.started ∧
    (length (currentQuestions Example.started) ≤ S (currentQuestionIndex Example.started) →
     scoreCard_hidden st' = false ∧
     quizContainer_hidden st' = true ∧
     optionsContainer st' = optionsContainer Example.started ∧
     questionText st' = questionText Example.started ∧
     random_calls st' = random_calls Example.started).
Proof.
  apply (@X15_Next_never_reads_past_the_end Example.engine Example.started).
  change (Forall WellFormedQuestion [Example.q1; Example.q2]).
  repeat constructor; [apply Run.q1_well_formed | apply Run.q2_well_formed].
Defined.

Lemma X17_witness :
  @initializeFirebase ExampleHost.engine ExampleHost.platform ExampleHost.bare
    ExampleHost.unset
    = (inr tt,
       log (console_error
              "Firebase config is missing or empty. Cannot initialize Firebase." None)
           ExampleHost.unset).
Proof.
  apply (@X17_missing_configuration_initializes_nothing ExampleHost.engine
           ExampleHost.platform ExampleHost.bare ExampleHost.unset (VObj []));
    reflexivity.
Defined.


Lemma X20_witness :
  let r := {| ok := true; status := 200; text := Returned "<html>";
              json := Thrown (SyntaxError_JSON "<html>") |} in
  @generateQuestionsWithAI Example.engine "Python" (FetchResponse r) Example.page
    = (Returned [],
       after_provider "Python"
         ["Failed to generate questions: Unexpected token in JSON. Please check your network or try again."]
         Example.page).
Proof.
  apply (@X20_undecodable_body_is_reported Example.engine "Python"
           {| ok := true; status := 200; text := Returned "<html>";
              json := Thrown (SyntaxError_JSON "<html>") |}
           (SyntaxError_JSON "<html>") Example.page); reflexivity.
Defined.

Lemma X21_witness :
  let result := VObj [("candidates", VArr [VNull])] in
  let e := TypeError_read VNull "content" in
  (result = VNull ∨ result = VUndefined) ∧ e = TypeError_read result "candidates" ∨
  ∃ candidates candidate,
    Get result "candidates" = Returned candidates ∧
    GetIndex candidates 0 = Returned candidate ∧
    (candidate = VNull ∨ candidate = VUndefined) ∧
    e = TypeError_read candidate "content".
Proof.
  apply (@X21_text_part_test_throws_at_two_places Example.engine
           (VObj [("candidates", VArr [VNull])]) (TypeError_read VNull "content")).
  vm_compute. reflexivity.
Defined.
